(** * A shallow embedding of the tool-calling agent notebooks

    The development follows the Python code of the notebooks: the two
    tools ([basic_calculator], [reverse_string]), the [Agent] class
    ([prepare_tools], [think], [execute_tool], [work]) and the earlier
    stand-alone functions of the Mistral notebook ([prepare_tools],
    [generate_response], [execute_tool]).

    Conventions.
    - A Python [str] is the list of its code points ([pystr]).
    - Python objects that flow through the code are values of [pyval].
    - [print] is an output effect and exceptions are results: a call is a
      value of [M A], the lines written followed by [Return] or [Raise].
    - Library functions the code calls ([json.loads], [json.dumps],
      [str.strip], [str.split], the [operator] functions on integers) are
      modelled next to the code that uses them, after CPython 3.11 (the
      kernel recorded in the notebooks). *)

From Stdlib Require Import List NArith ZArith String Ascii Bool Lia.
From Stdlib Require DecimalFacts DecimalPos DecimalN.
Import ListNotations.

Set Implicit Arguments.
Open Scope string_scope.
Open Scope list_scope.

(* ===================================================================== *)
(** ** Text *)
(* ===================================================================== *)

Module Text.

(** A Python string: the sequence of its code points. *)
Definition pystr := list N.

(** String literals of this file are ASCII, one code point per byte. *)
Definition lit (s : string) : pystr :=
  List.map N_of_ascii (list_ascii_of_string s).

Definition eqb (a b : pystr) : bool :=
  if list_eq_dec N.eq_dec a b then true else false.

Definition ch (a : ascii) : N := N_of_ascii a.

(** Line feed, double quote and single quote, as one-character strings. *)
Definition LF : pystr := [10%N].
Definition DQ : pystr := [34%N].
Definition SQ : pystr := [39%N].

(** An f-string, or a chain of [+]: the parts one after the other. *)
Definition fstr (parts : list pystr) : pystr := List.concat parts.

(** [str.join]. *)
Fixpoint join (sep : pystr) (parts : list pystr) : pystr :=
  match parts with
  | [] => []
  | [p] => p
  | p :: rest => p ++ sep ++ join sep rest
  end.

(** [s.startswith(p)]. *)
Fixpoint startswith (p s : pystr) : bool :=
  match p, s with
  | [], _ => true
  | _ :: _, [] => false
  | a :: p', b :: s' => N.eqb a b && startswith p' s'
  end.

(** [p in s] for strings: [p] occurs in [s] as a contiguous run. *)
Fixpoint contains (p s : pystr) : bool :=
  startswith p s ||
  match s with
  | [] => false
  | _ :: s' => contains p s'
  end.

(** [s.partition(sep)] for a non-empty [sep]: the text before and after the
    first occurrence of [sep], or [None] when there is none. *)
Fixpoint cut (sep s : pystr) : option (pystr * pystr) :=
  if startswith sep s then Some ([], skipn (List.length sep) s)
  else match s with
       | [] => None
       | c :: s' =>
           match cut sep s' with
           | Some (a, b) => Some (c :: a, b)
           | None => None
           end
       end.

(** [s.split(sep, 1)]. *)
Definition split1 (sep s : pystr) : list pystr :=
  match cut sep s with
  | Some (a, b) => [a; b]
  | None => [s]
  end.

(** [s.split(c)] for a one-character separator [c]. *)
Fixpoint split_char (c : N) (s : pystr) : list pystr :=
  match s with
  | [] => [[]]
  | x :: s' =>
      if N.eqb x c then [] :: split_char c s'
      else match split_char c s' with
           | [] => [[x]]
           | p :: ps => (x :: p) :: ps
           end
  end.

(** [s.replace(a, b)] for one-character [a] and [b]. *)
Definition replace_char (a b : N) (s : pystr) : pystr :=
  List.map (fun x => if N.eqb x a then b else x) s.

(** [str.isspace] on one code point (Unicode white space, as used by
    [str.strip()] without argument). *)
Definition isspace (c : N) : bool :=
  ((9 <=? c) && (c <=? 13) || (28 <=? c) && (c <=? 32)
   || (c =? 133) || (c =? 160) || (c =? 5760)
   || (8192 <=? c) && (c <=? 8202)
   || (c =? 8232) || (c =? 8233) || (c =? 8239) || (c =? 8287)
   || (c =? 12288))%N.

Fixpoint lstrip_by (f : N -> bool) (s : pystr) : pystr :=
  match s with
  | [] => []
  | c :: s' => if f c then lstrip_by f s' else s
  end.

Definition rstrip_by (f : N -> bool) (s : pystr) : pystr :=
  rev (lstrip_by f (rev s)).

Definition strip_by (f : N -> bool) (s : pystr) : pystr :=
  rstrip_by f (lstrip_by f s).

(** [s.strip()]. *)
Definition strip (s : pystr) : pystr := strip_by isspace s.

(** [s.strip(c)] for a one-character [c]. *)
Definition strip_char (c : N) (s : pystr) : pystr := strip_by (N.eqb c) s.

(** Decimal digits of a natural number, as [str(n)] writes them. *)
Fixpoint of_uint (d : Decimal.uint) : pystr :=
  match d with
  | Decimal.Nil => []
  | Decimal.D0 d => 48%N :: of_uint d
  | Decimal.D1 d => 49%N :: of_uint d
  | Decimal.D2 d => 50%N :: of_uint d
  | Decimal.D3 d => 51%N :: of_uint d
  | Decimal.D4 d => 52%N :: of_uint d
  | Decimal.D5 d => 53%N :: of_uint d
  | Decimal.D6 d => 54%N :: of_uint d
  | Decimal.D7 d => 55%N :: of_uint d
  | Decimal.D8 d => 56%N :: of_uint d
  | Decimal.D9 d => 57%N :: of_uint d
  end.

Definition of_N (n : N) : pystr := of_uint (N.to_uint n).

(** [str(z)] for an integer (without the limit on the number of digits,
    which [Values.str_int] adds). *)
Definition of_Z (z : Z) : pystr :=
  match z with
  | Z0 => lit "0"
  | Zpos p => of_N (Npos p)
  | Zneg p => ch "-" :: of_N (Npos p)
  end.

End Text.

Import Text.
Coercion Text.lit : string >-> Text.pystr.

(** [PY[ a; b; c ]] is a list of strings, [F[ a; b; c ]] the f-string with
    the parts [a], [b] and [c], and [LINES[ a; b; c ]] the text with the
    lines [a], [b] and [c]. *)
Notation "'PY[' x ; .. ; y ']'" :=
  (@cons Text.pystr x .. (@cons Text.pystr y (@nil Text.pystr)) ..).
Notation "'F[' x ; .. ; y ']'" :=
  (Text.fstr (@cons Text.pystr x .. (@cons Text.pystr y (@nil Text.pystr)) ..)).
Notation "'LINES[' x ; .. ; y ']'" :=
  (Text.join Text.LF
     (@cons Text.pystr x .. (@cons Text.pystr y (@nil Text.pystr)) ..)).

(* ===================================================================== *)
(** ** Python values, exceptions and effects *)
(* ===================================================================== *)

Module Values.

(** The objects the code handles: what [json.loads] can return, plus
    tuples. A float is kept as the text of the literal it was read from. *)
#[warnings="-register-all"]
Inductive pyval : Type :=
| PyNone
| PyBool (b : bool)
| PyInt (z : Z)
| PyFloat (literal : pystr)
| PyStr (s : pystr)
| PyList (items : list pyval)
| PyTuple (items : list pyval)
| PyDict (items : list (pystr * pyval)).

(** [type(v).__name__]. *)
Definition type_name (v : pyval) : pystr :=
  match v with
  | PyNone => "NoneType"
  | PyBool _ => "bool"
  | PyInt _ => "int"
  | PyFloat _ => "float"
  | PyStr _ => "str"
  | PyList _ => "list"
  | PyTuple _ => "tuple"
  | PyDict _ => "dict"
  end.

(** Exception classes, as far as the handlers of the code tell them apart.
    [RequestException] stands for [requests.RequestException] and its
    subclasses, [OtherException] for any other subclass of [Exception],
    [BaseExceptionOnly] for what [except Exception] does not catch
    ([KeyboardInterrupt], [SystemExit]). *)
Inductive exn_class : Type :=
| JSONDecodeError
| KeyError
| TypeError
| AttributeError
| ValueError
| ZeroDivisionError
| IndexError
| RequestException
| OtherException
| BaseExceptionOnly.

(** An exception: its class and [str(e)]. *)
Record exn : Type := Exn { exn_cls : exn_class; exn_str : pystr }.

(** [isinstance(e, Exception)]. *)
Definition is_Exception (e : exn) : bool :=
  match exn_cls e with
  | BaseExceptionOnly => false
  | _ => true
  end.

(** [isinstance(e, (json.JSONDecodeError, KeyError))]. *)
Definition is_JSONDecodeError_or_KeyError (e : exn) : bool :=
  match exn_cls e with
  | JSONDecodeError | KeyError => true
  | _ => false
  end.

(** [isinstance(e, requests.RequestException)]. *)
Definition is_RequestException (e : exn) : bool :=
  match exn_cls e with
  | RequestException => true
  | _ => false
  end.

(** The outcome of a call: a value, or an exception on its way up. *)
Inductive result (A : Type) : Type :=
| Return (a : A)
| Raise (e : exn).
Arguments Return {A} a.
Arguments Raise {A} e.

(** What [print] wrote: plain text, or text wrapped by
    [termcolor.colored]. *)
Inductive color : Type := Cyan | Red.
Inductive printed : Type :=
| Plain (text : pystr)
| Colored (text : pystr) (c : color).

(** A call that may print: the lines written, then the outcome. *)
Definition M (A : Type) : Type := (list printed * result A)%type.

Definition ret {A} (a : A) : M A := ([], Return a).
Definition raise {A} (e : exn) : M A := ([], Raise e).
Definition print (p : printed) : M unit := ([p], Return tt).
Definition lift {A} (r : result A) : M A := ([], r).

Definition bind {A B} (m : M A) (k : A -> M B) : M B :=
  match m with
  | (out, Return a) => let (out', r) := k a in (out ++ out', r)
  | (out, Raise e) => (out, Raise e)
  end.

(** [try: body / except <cls> as e: handler(e)]. *)
Definition try_except {A} (body : M A) (catches : exn -> bool)
    (handler : exn -> M A) : M A :=
  match body with
  | (out, Return a) => (out, Return a)
  | (out, Raise e) =>
      if catches e then let (out', r) := handler e in (out ++ out', r)
      else (out, Raise e)
  end.

Definition stdout {A} (m : M A) : list printed := fst m.
Definition outcome {A} (m : M A) : result A := snd m.

(** The same two operations without output. *)
Definition rbind {A B} (r : result A) (k : A -> result B) : result B :=
  match r with
  | Return a => k a
  | Raise e => Raise e
  end.

(** The result of [str(v)]: the text, or the message of the exception
    that the conversion raised. *)
Inductive shown : Type :=
| Text (s : pystr)
| Fails (message : pystr).

(** What the embedding takes from the interpreter without modelling it.
    - [binop_text op a b]: [str(operations[op](a, b))] for operands other
      than two integers, and for integer operations whose result is a
      float; [Fails m] when the operation or the conversion raises (these
      functions raise subclasses of [Exception] only).
    - [float_repr l]: [repr(float(l))] for the text [l] of a float literal.
    - [isprintable c]: [chr(c).isprintable()], consulted for code points
      from 128 on.
    - [str_format t d]: [t.format(tool_descriptions=d)]. *)
Record runtime : Type := Runtime {
  binop_text : pystr -> pyval -> pyval -> shown;
  float_repr : pystr -> pystr;
  isprintable : N -> bool;
  str_format : pystr -> pystr -> result pystr
}.

(** [sys.get_int_max_str_digits()], the default of CPython 3.11. *)
Definition int_max_str_digits : nat := 4300.

Definition digits_limit_message : pystr :=
  "Exceeds the limit (4300 digits) for integer string conversion; use sys.set_int_max_str_digits() to increase the limit".

(** [str(z)] for an integer. *)
Definition str_int (z : Z) : shown :=
  let digits := Text.of_N (Z.abs_N z) in
  if Nat.ltb int_max_str_digits (List.length digits)
  then Fails digits_limit_message
  else Text (Text.of_Z z).

(** The hexadecimal digit of a number below 16, and a number written with
    [width] hexadecimal digits. *)
Definition hex_char (n : N) : N :=
  if (n <? 10)%N then (48 + n)%N else (87 + n)%N.

Fixpoint hex_fixed (width : nat) (n : N) : pystr :=
  match width with
  | O => []
  | S w => hex_fixed w (n / 16)%N ++ [hex_char (n mod 16)%N]
  end.

(** [repr(s)] for a string: single quotes unless the text has a single
    quote and no double quote. *)
Definition repr_char (rt : runtime) (quote c : N) : pystr :=
  if ((c =? quote) || (c =? 92))%N then [92%N; c]
  else if (c =? 9)%N then "\t"
  else if (c =? 10)%N then "\n"
  else if (c =? 13)%N then "\r"
  else if ((c <? 32) || (c =? 127))%N then F[ "\x"; hex_fixed 2 c ]
  else if (c <? 127)%N then [c]
  else if isprintable rt c then [c]
  else if (c <=? 255)%N then F[ "\x"; hex_fixed 2 c ]
  else if (c <=? 65535)%N then F[ "\u"; hex_fixed 4 c ]
  else F[ "\U"; hex_fixed 8 c ].

Definition repr_str (rt : runtime) (s : pystr) : pystr :=
  let quote :=
    if existsb (N.eqb 39) s && negb (existsb (N.eqb 34) s) then 34%N
    else 39%N in
  [quote] ++ List.concat (List.map (repr_char rt quote) s) ++ [quote].

(** The texts of a list of conversions, or the first failure. *)
Fixpoint all_shown (l : list shown) : pystr + list pystr :=
  match l with
  | [] => inr []
  | Fails m :: _ => inl m
  | Text s :: l' =>
      match all_shown l' with
      | inl m => inl m
      | inr ss => inr (s :: ss)
      end
  end.

(** [repr(v)]. *)
Fixpoint py_repr (rt : runtime) (v : pyval) : shown :=
  match v with
  | PyNone => Text "None"
  | PyBool true => Text "True"
  | PyBool false => Text "False"
  | PyInt z => str_int z
  | PyFloat l => Text (float_repr rt l)
  | PyStr s => Text (repr_str rt s)
  | PyList items =>
      match all_shown (List.map (py_repr rt) items) with
      | inl m => Fails m
      | inr ss => Text F[ "["; Text.join ", " ss; "]" ]
      end
  | PyTuple items =>
      match all_shown (List.map (py_repr rt) items) with
      | inl m => Fails m
      | inr [one] => Text F[ "("; one; ",)" ]
      | inr ss => Text F[ "("; Text.join ", " ss; ")" ]
      end
  | PyDict items =>
      match all_shown
              (List.map (fun kv =>
                 match py_repr rt (snd kv) with
                 | Text t => Text F[ repr_str rt (fst kv); ": "; t ]
                 | Fails m => Fails m
                 end) items) with
      | inl m => Fails m
      | inr ss => Text F[ "{"; Text.join ", " ss; "}" ]
      end
  end.

(** [str(v)]: the text itself for a string, [repr(v)] otherwise. *)
Definition py_str (rt : runtime) (v : pyval) : shown :=
  match v with
  | PyStr s => Text s
  | _ => py_repr rt v
  end.

(** [str(v)] as a step of a computation: the only failure is the
    [ValueError] of an integer over the digit limit. *)
Definition str_of (rt : runtime) (v : pyval) : result pystr :=
  match py_str rt v with
  | Text s => Return s
  | Fails m => Raise (Exn ValueError m)
  end.

(** Dictionaries keep insertion order; assigning to a key that is present
    replaces its value in place. *)
Fixpoint dict_get {V : Type} (k : pystr) (d : list (pystr * V)) : option V :=
  match d with
  | [] => None
  | (k', v) :: d' => if Text.eqb k k' then Some v else dict_get k d'
  end.

Fixpoint dict_set {V : Type} (k : pystr) (v : V) (d : list (pystr * V))
    : list (pystr * V) :=
  match d with
  | [] => [(k, v)]
  | (k', v') :: d' =>
      if Text.eqb k k' then (k, v) :: d' else (k', v') :: dict_set k v d'
  end.

(** [repr(k)] for a key made of letters, digits and underscores, and the
    [KeyError] of a failed lookup of such a key. *)
Definition key_error (k : pystr) : exn := Exn KeyError F[ SQ; k; SQ ].

(** [v[k]] for a string [k]. *)
Definition getitem (v : pyval) (k : pystr) : result pyval :=
  match v with
  | PyDict d =>
      match dict_get k d with
      | Some x => Return x
      | None => Raise (key_error k)
      end
  | PyList _ =>
      Raise (Exn TypeError "list indices must be integers or slices, not str")
  | PyTuple _ =>
      Raise (Exn TypeError "tuple indices must be integers or slices, not str")
  | PyStr _ =>
      Raise (Exn TypeError "string indices must be integers, not 'str'")
  | _ =>
      Raise (Exn TypeError F[ SQ; type_name v; SQ; " object is not subscriptable" ])
  end.

(** The [AttributeError] of [v.attr] on an object without that attribute. *)
Definition no_attribute (v : pyval) (attr : pystr) : exn :=
  Exn AttributeError
    F[ SQ; type_name v; SQ; " object has no attribute "; SQ; attr; SQ ].

(** [d.get(k)] without a default. *)
Definition dict_method_get (v : pyval) (k : pystr) : result pyval :=
  match v with
  | PyDict d =>
      match dict_get k d with
      | Some x => Return x
      | None => Return PyNone
      end
  | _ => Raise (no_attribute v "get")
  end.

(** The first object inside [v] that cannot be hashed, if any. *)
Fixpoint unhashable (v : pyval) : option pystr :=
  match v with
  | PyList _ => Some (Text.lit "list")
  | PyDict _ => Some (Text.lit "dict")
  | PyTuple items =>
      (fix first (l : list pyval) : option pystr :=
         match l with
         | [] => None
         | x :: l' =>
             match unhashable x with
             | Some t => Some t
             | None => first l'
             end
         end) items
  | _ => None
  end.

End Values.

Import Values.

Notation "x <- m ;; k" := (bind m (fun x => k))
  (at level 61, m at next level, right associativity).
Notation "m ;;; k" := (bind m (fun _ => k))
  (at level 61, right associativity).

(* ===================================================================== *)
(** ** The [json] module *)
(* ===================================================================== *)

Module Json.

(** *** [json.loads]

    After [json/decoder.py] and the scanner of [_json.c]. The recursion
    limit of the interpreter is not modelled: nesting may be arbitrarily
    deep. *)

(** A failed scan: [JSONDecodeError(msg, doc, pos)], or the [ValueError] of
    [int()] on a literal with too many digits. *)
Inductive scan_error : Type :=
| DecodeError (msg : pystr) (pos : nat)
| TooManyDigits (ndigits : nat).

(** A scan returns the value, the text that follows it and the index of
    that text in the document. *)
Inductive scan (A : Type) : Type :=
| Scanned (a : A) (rest : pystr) (pos : nat)
| Failed (e : scan_error)
| OutOfFuel.
Arguments Scanned {A} a rest pos.
Arguments Failed {A} e.
Arguments OutOfFuel {A}.

Definition is_ws (c : N) : bool :=
  ((c =? 32) || (c =? 9) || (c =? 10) || (c =? 13))%N.

Fixpoint skip_ws (s : pystr) (pos : nat) : pystr * nat :=
  match s with
  | c :: s' => if is_ws c then skip_ws s' (S pos) else (s, pos)
  | [] => (s, pos)
  end.

Definition is_digit (c : N) : bool := ((48 <=? c) && (c <=? 57))%N.

Definition hex_digit (c : N) : option N :=
  if is_digit c then Some (c - 48)%N
  else if ((97 <=? c) && (c <=? 102))%N then Some (c - 87)%N
  else if ((65 <=? c) && (c <=? 70))%N then Some (c - 55)%N
  else None.

Definition hex4 (a b c d : N) : option N :=
  match hex_digit a, hex_digit b, hex_digit c, hex_digit d with
  | Some x, Some y, Some z, Some w => Some (((x * 16 + y) * 16 + z) * 16 + w)%N
  | _, _, _, _ => None
  end.

Definition is_high_surrogate (c : N) : bool := ((55296 <=? c) && (c <=? 56319))%N.
Definition is_low_surrogate (c : N) : bool := ((56320 <=? c) && (c <=? 57343))%N.
Definition join_surrogates (hi lo : N) : N :=
  (65536 + ((hi - 55296) * 1024 + (lo - 56320)))%N.

(** The character a one-letter escape stands for. *)
Definition simple_escape (c : N) : option N :=
  if (c =? 34)%N then Some 34%N            (* double quote *)
  else if (c =? 92)%N then Some 92%N       (* backslash *)
  else if (c =? 47)%N then Some 47%N       (* slash *)
  else if (c =? 98)%N then Some 8%N        (* b: backspace *)
  else if (c =? 102)%N then Some 12%N      (* f: form feed *)
  else if (c =? 110)%N then Some 10%N      (* n: line feed *)
  else if (c =? 114)%N then Some 13%N      (* r: carriage return *)
  else if (c =? 116)%N then Some 9%N       (* t: tab *)
  else None.

(** A second [\uXXXX] right after a high surrogate: [None] when the text
    does not continue with a backslash, [u], four characters and at least
    one more. *)
Definition second_escape (s : pystr) : option (option N * pystr) :=
  match s with
  | b :: u :: a1 :: a2 :: a3 :: a4 :: ((_ :: _) as rest) =>
      if ((b =? 92) && (u =? 117))%N then Some (hex4 a1 a2 a3 a4, rest)
      else None
  | _ => None
  end.

(** [scanstring], strict: [s] is the text after the opening quote, [pos]
    its index, [start] the index of the opening quote; [acc] holds the
    characters read so far, last first. *)
Fixpoint scanstring (start pos : nat) (s : pystr) (acc : pystr)
    {struct s} : scan pystr :=
  match s with
  | [] => Failed (DecodeError "Unterminated string starting at" start)
  | c :: r =>
      if (c =? 34)%N then Scanned (rev acc) r (S pos)
      else if (c =? 92)%N then
        match r with
        | [] => Failed (DecodeError "Unterminated string starting at" start)
        | e :: r1 =>
            if (e =? 117)%N then
              match r1 with
              | a1 :: a2 :: a3 :: a4 :: ((_ :: _) as r5) =>
                  match hex4 a1 a2 a3 a4 with
                  | None => Failed (DecodeError "Invalid \uXXXX escape" (S pos))
                  | Some hi =>
                      if is_high_surrogate hi then
                        match second_escape r5 with
                        | Some (None, _) =>
                            Failed (DecodeError "Invalid \uXXXX escape" (pos + 7))
                        | Some (Some lo, _) =>
                            if is_low_surrogate lo then
                              match r5 with
                              | _ :: _ :: _ :: _ :: _ :: _ :: r11 =>
                                  scanstring start (pos + 12) r11
                                    (join_surrogates hi lo :: acc)
                              | _ => OutOfFuel
                              end
                            else scanstring start (pos + 6) r5 (hi :: acc)
                        | None => scanstring start (pos + 6) r5 (hi :: acc)
                        end
                      else scanstring start (pos + 6) r5 (hi :: acc)
                  end
              | _ => Failed (DecodeError "Invalid \uXXXX escape" (S pos))
              end
            else
              match simple_escape e with
              | Some x => scanstring start (pos + 2) r1 (x :: acc)
              | None => Failed (DecodeError "Invalid \escape" pos)
              end
        end
      else if (c <=? 31)%N then
        Failed (DecodeError "Invalid control character at" pos)
      else scanstring start (S pos) r (c :: acc)
  end.

(** The longest run of decimal digits at the head of [s]. *)
Fixpoint span_digits (s : pystr) : pystr * pystr :=
  match s with
  | c :: s' =>
      if is_digit c then let (d, r) := span_digits s' in (c :: d, r)
      else ([], s)
  | [] => ([], [])
  end.

(** The value of a run of decimal digits. *)
Definition digits_value (d : pystr) : Z :=
  fold_left (fun acc c => (acc * 10 + Z.of_N (c - 48))%Z) d 0%Z.

(** The integer part of a number: [0], or a digit from 1 to 9 followed by
    digits. *)
Definition int_part (s : pystr) : option (pystr * pystr) :=
  match s with
  | c :: s' =>
      if (c =? 48)%N then Some ([c], s')
      else if is_digit c then let (d, r) := span_digits s' in Some (c :: d, r)
      else None
  | [] => None
  end.

(** The fraction: a dot followed by at least one digit. *)
Definition frac_part (s : pystr) : pystr * pystr :=
  match s with
  | c :: s' =>
      if (c =? 46)%N then
        match span_digits s' with
        | ([], _) => ([], s)
        | (d, r) => (c :: d, r)
        end
      else ([], s)
  | [] => ([], s)
  end.

(** The exponent: [e] or [E], an optional sign, at least one digit. *)
Definition exp_part (s : pystr) : pystr * pystr :=
  match s with
  | c :: s' =>
      if ((c =? 101) || (c =? 69))%N then
        let (sign, s'') :=
          match s' with
          | g :: t => if ((g =? 45) || (g =? 43))%N then ([g], t) else ([], s')
          | [] => ([], s')
          end in
        match span_digits s'' with
        | ([], _) => ([], s)
        | (d, r) => (c :: sign ++ d, r)
        end
      else ([], s)
  | [] => ([], s)
  end.

(** [_match_number]: an optional minus sign, the integer part, then a
    fraction and an exponent when present. Without fraction and exponent
    the literal is an [int], else a [float]. *)
Definition match_number (pos : nat) (s : pystr) : scan pyval :=
  let (neg, body) :=
    match s with
    | c :: s' => if (c =? 45)%N then (true, s') else (false, s)
    | [] => (false, s)
    end in
  match int_part body with
  | None => Failed (DecodeError "Expecting value" pos)
  | Some (ds, r) =>
      let (fr, r1) := frac_part r in
      let (ex, r2) := exp_part r1 in
      let sign : pystr := if neg then [45%N] else [] in
      match fr, ex with
      | [], [] =>
          if Nat.ltb int_max_str_digits (List.length ds)
          then Failed (TooManyDigits (List.length ds))
          else Scanned
                 (PyInt (if neg then - digits_value ds else digits_value ds)%Z)
                 r2 (pos + List.length sign + List.length ds)
      | _, _ =>
          let text := sign ++ ds ++ fr ++ ex in
          Scanned (PyFloat text) r2 (pos + List.length text)
      end
  end.

(** A named constant at the head of [s]. *)
Definition constant (s : pystr) : option (pyval * nat) :=
  if Text.startswith "null" s then Some (PyNone, 4)
  else if Text.startswith "true" s then Some (PyBool true, 4)
  else if Text.startswith "false" s then Some (PyBool false, 5)
  else if Text.startswith "NaN" s then Some (PyFloat "NaN", 3)
  else if Text.startswith "Infinity" s then Some (PyFloat "Infinity", 8)
  else if Text.startswith "-Infinity" s then Some (PyFloat "-Infinity", 9)
  else None.

(** [scan_once], with the loops of [JSONObject] and [JSONArray]. Every
    call spends one unit of [fuel]; [loads] supplies enough. *)
Fixpoint scan_once (fuel : nat) (pos : nat) (s : pystr) {struct fuel}
    : scan pyval :=
  match fuel with
  | O => OutOfFuel
  | S f =>
      match s with
      | [] => Failed (DecodeError "Expecting value" pos)
      | c :: r =>
          if (c =? 34)%N then
            match scanstring pos (S pos) r [] with
            | Scanned t r' p' => Scanned (PyStr t) r' p'
            | Failed e => Failed e
            | OutOfFuel => OutOfFuel
            end
          else if (c =? 123)%N then
            let (r', p') := skip_ws r (S pos) in
            match r' with
            | c' :: r'' =>
                if (c' =? 125)%N then Scanned (PyDict []) r'' (S p')
                else object_loop f p' r' []
            | [] => object_loop f p' r' []
            end
          else if (c =? 91)%N then
            let (r', p') := skip_ws r (S pos) in
            match r' with
            | c' :: r'' =>
                if (c' =? 93)%N then Scanned (PyList []) r'' (S p')
                else array_loop f p' r' []
            | [] => array_loop f p' r' []
            end
          else
            match constant s with
            | Some (v, n) => Scanned v (skipn n s) (pos + n)
            | None => match_number pos s
            end
      end
  end

(** One round of the loop of [JSONObject]: [s] is where a key is due. *)
with object_loop (fuel : nat) (pos : nat) (s : pystr)
    (acc : list (pystr * pyval)) {struct fuel} : scan pyval :=
  match fuel with
  | O => OutOfFuel
  | S f =>
      let no_key :=
        Failed (DecodeError
                  "Expecting property name enclosed in double quotes" pos) in
      match s with
      | [] => no_key
      | c :: r =>
          if negb (c =? 34)%N then no_key
          else
            match scanstring pos (S pos) r [] with
            | Failed e => Failed e
            | OutOfFuel => OutOfFuel
            | Scanned key r1 p1 =>
                let (r2, p2) := skip_ws r1 p1 in
                match r2 with
                | c2 :: r3 =>
                    if negb (c2 =? 58)%N
                    then Failed (DecodeError "Expecting ':' delimiter" p2)
                    else
                      let (r4, p4) := skip_ws r3 (S p2) in
                      match scan_once f p4 r4 with
                      | Failed e => Failed e
                      | OutOfFuel => OutOfFuel
                      | Scanned v r5 p5 =>
                          let acc' := dict_set key v acc in
                          let (r6, p6) := skip_ws r5 p5 in
                          match r6 with
                          | c6 :: r7 =>
                              if (c6 =? 125)%N
                              then Scanned (PyDict acc') r7 (S p6)
                              else if (c6 =? 44)%N then
                                let (r8, p8) := skip_ws r7 (S p6) in
                                object_loop f p8 r8 acc'
                              else Failed (DecodeError
                                             "Expecting ',' delimiter" p6)
                          | [] => Failed (DecodeError
                                            "Expecting ',' delimiter" p6)
                          end
                      end
                | [] => Failed (DecodeError "Expecting ':' delimiter" p2)
                end
            end
      end
  end

(** One round of the loop of [JSONArray]: [s] is where a value is due. *)
with array_loop (fuel : nat) (pos : nat) (s : pystr) (acc : list pyval)
    {struct fuel} : scan pyval :=
  match fuel with
  | O => OutOfFuel
  | S f =>
      match scan_once f pos s with
      | Failed e => Failed e
      | OutOfFuel => OutOfFuel
      | Scanned v r1 p1 =>
          let acc' := acc ++ [v] in
          let (r2, p2) := skip_ws r1 p1 in
          match r2 with
          | c :: r3 =>
              if (c =? 93)%N then Scanned (PyList acc') r3 (S p2)
              else if (c =? 44)%N then
                let (r4, p4) := skip_ws r3 (S p2) in
                array_loop f p4 r4 acc'
              else Failed (DecodeError "Expecting ',' delimiter" p2)
          | [] => Failed (DecodeError "Expecting ',' delimiter" p2)
          end
      end
  end.

(** Line and column of index [pos] in [doc], as [JSONDecodeError] reports
    them. *)
Fixpoint line_col (doc : pystr) (pos : nat) (line col : nat) : nat * nat :=
  match pos, doc with
  | S pos', c :: doc' =>
      if (c =? 10)%N then line_col doc' pos' (S line) 1
      else line_col doc' pos' line (S col)
  | _, _ => (line, col)
  end.

Definition of_nat (n : nat) : pystr := Text.of_N (N.of_nat n).

(** [str(e)] for [JSONDecodeError(msg, doc, pos)]. *)
Definition decode_error_str (msg doc : pystr) (pos : nat) : pystr :=
  let (line, col) := line_col doc pos 1 1 in
  F[ msg; ": line "; of_nat line; " column "; of_nat col;
     " (char "; of_nat pos; ")" ].

Definition to_exn (doc : pystr) (e : scan_error) : exn :=
  match e with
  | DecodeError msg pos => Exn JSONDecodeError (decode_error_str msg doc pos)
  | TooManyDigits n =>
      Exn ValueError
        F[ "Exceeds the limit (4300 digits) for integer string conversion: value has ";
           of_nat n;
           " digits; use sys.set_int_max_str_digits() to increase the limit" ]
  end.

(** The fuel [loads] gives to [scan_once] on a document of [n]
    characters. *)
Definition fuel_for (n : nat) : nat := 2 * n + 1.

(** [json.loads(s)] for a [str]. *)
Definition loads (doc : pystr) : result pyval :=
  if Text.startswith [65279%N] doc then
    Raise (to_exn doc
             (DecodeError "Unexpected UTF-8 BOM (decode using utf-8-sig)" 0))
  else
    let (s, p) := skip_ws doc 0 in
    match scan_once (fuel_for (List.length doc)) p s with
    | Scanned v rest p' =>
        let (rest', p'') := skip_ws rest p' in
        match rest' with
        | [] => Return v
        | _ :: _ => Raise (to_exn doc (DecodeError "Extra data" p''))
        end
    | Failed e => Raise (to_exn doc e)
    | OutOfFuel => Raise (Exn OtherException "maximum recursion depth exceeded")
    end.

(** Two readings of a scan of the text [s], used to show that [loads]
    gives [scan_once] enough fuel: the scan consumed at least one
    character and did not run out of fuel ([advances]), or merely
    consumed at least one character when it succeeded ([shorter]). *)
Definition advances {A} (s : pystr) (res : scan A) : Prop :=
  match res with
  | Scanned _ r _ => List.length r < List.length s
  | Failed _ => True
  | OutOfFuel => False
  end.

Definition shorter {A} (s : pystr) (res : scan A) : Prop :=
  match res with
  | Scanned _ r _ => List.length r < List.length s
  | _ => True
  end.

(** *** [json.dumps(obj, indent=2)]

    After [json/encoder.py], for the documents [prepare_tools] builds:
    strings, booleans and dicts with string keys. *)

#[warnings="-register-all"]
Inductive jdoc : Type :=
| JString (s : pystr)
| JBool (b : bool)
| JObject (items : list (pystr * jdoc)).

(** One character of [encode_basestring_ascii]. *)
Definition escape_ascii (c : N) : pystr :=
  if (c =? 34)%N then [92%N; 34%N]
  else if (c =? 92)%N then [92%N; 92%N]
  else if (c =? 10)%N then "\n"
  else if (c =? 13)%N then "\r"
  else if (c =? 9)%N then "\t"
  else if (c =? 8)%N then "\b"
  else if (c =? 12)%N then "\f"
  else if ((32 <=? c) && (c <=? 126))%N then [c]
  else if (c <? 65536)%N then F[ "\u"; hex_fixed 4 c ]
  else
    let n := (c - 65536)%N in
    F[ "\u"; hex_fixed 4 (55296 + (n / 1024) mod 1024)%N;
       "\u"; hex_fixed 4 (56320 + n mod 1024)%N ].

Definition encode_basestring_ascii (s : pystr) : pystr :=
  DQ ++ List.concat (List.map escape_ascii s) ++ DQ.

(** A line feed followed by [level] times the indent of two spaces. *)
Definition newline_indent (level : nat) : pystr :=
  LF ++ List.concat (List.repeat (Text.lit "  ") level).

Fixpoint dumps_at (level : nat) (doc : jdoc) : pystr :=
  match doc with
  | JString s => encode_basestring_ascii s
  | JBool true => "true"
  | JBool false => "false"
  | JObject [] => "{}"
  | JObject items =>
      F[ "{"; newline_indent (S level);
         Text.join (Text.lit "," ++ newline_indent (S level))
           (List.map (fun kv =>
              F[ encode_basestring_ascii (fst kv); ": ";
                 dumps_at (S level) (snd kv) ]) items);
         newline_indent level; "}" ]
  end.

Definition dumps_indent2 (doc : jdoc) : pystr := dumps_at 0 doc.

End Json.

(* ===================================================================== *)
(** ** The tools *)
(* ===================================================================== *)

Module Tools.

(** A tool is a Python function: its [__name__], its [__doc__] and what a
    call with one argument does. *)
Record tool : Type := Tool {
  __name__ : pystr;
  __doc__ : option pystr;
  call : pyval -> M pyval
}.

(** The keys of the dict [operations], in the order of the source. *)
Definition operations : list pystr :=
  PY[ "add"; "subtract"; "multiply"; "divide"; "floor_divide"; "modulus";
      "power"; "lt"; "le"; "eq"; "ne"; "ge"; "gt" ].

Definition str_bool (b : bool) : shown :=
  if b then Text "True" else Text "False".

(** [str(operations[op](a, b))] for two integers and a key [op] of
    [operations]. A quotient and a negative power of a non-zero integer
    are floats, left to the interpreter. *)
Definition int_operation (rt : runtime) (op : pystr) (a b : Z) : shown :=
  if Text.eqb op "add" then str_int (a + b)
  else if Text.eqb op "subtract" then str_int (a - b)
  else if Text.eqb op "multiply" then str_int (a * b)
  else if Text.eqb op "divide" then
    if (b =? 0)%Z then Fails "division by zero"
    else binop_text rt op (PyInt a) (PyInt b)
  else if Text.eqb op "floor_divide" then
    if (b =? 0)%Z then Fails "integer division or modulo by zero"
    else str_int (a / b)
  else if Text.eqb op "modulus" then
    if (b =? 0)%Z then Fails "integer modulo by zero"
    else str_int (a mod b)
  else if Text.eqb op "power" then
    if (0 <=? b)%Z then str_int (a ^ b)
    else if (a =? 0)%Z then Fails "0.0 cannot be raised to a negative power"
    else binop_text rt op (PyInt a) (PyInt b)
  else if Text.eqb op "lt" then str_bool (a <? b)%Z
  else if Text.eqb op "le" then str_bool (a <=? b)%Z
  else if Text.eqb op "eq" then str_bool (a =? b)%Z
  else if Text.eqb op "ne" then str_bool (negb (a =? b)%Z)
  else if Text.eqb op "ge" then str_bool (a >=? b)%Z
  else str_bool (a >? b)%Z.

(** [str(operations[op](num1, num2))], the body of the inner [try]. *)
Definition operate (rt : runtime) (op : pystr) (num1 num2 : pyval) : shown :=
  match num1, num2 with
  | PyInt a, PyInt b => int_operation rt op a b
  | _, _ => binop_text rt op num1 num2
  end.

Definition invalid_input_hint : pystr :=
  "Invalid input format. Please provide a valid JSON string.".
Definition execution_error_hint : pystr :=
  F[ LF; LF; "Error during operation execution." ].
Definition unsupported_operation : pystr :=
  F[ LF; LF; "Unsupported operation. Please provide a valid operation." ].

(** [input_str.replace("'", '"')] then [.strip().strip('"')]. *)
Definition clean (input_str : pystr) : pystr :=
  let input_str_clean := Text.replace_char 39 34 input_str in
  Text.strip_char 34 (Text.strip input_str_clean).


(** The text [basic_calculator] returns for the result [result]. *)
Definition answer (result : pystr) : pystr :=
  F[ LF; LF; "The answer is: "; result; "."; LF;
     "Calculated with basic_calculator." ].

(** The first [try] block of [basic_calculator]. *)
Definition parse_input (input_str : pyval)
    : result (pyval * pyval * pyval) :=
  match input_str with
  | PyStr s =>
      rbind (Json.loads (clean s)) (fun input_dict =>
      rbind (getitem input_dict "num1") (fun num1 =>
      rbind (getitem input_dict "num2") (fun num2 =>
      rbind (getitem input_dict "operation") (fun operation =>
      Return (num1, num2, operation)))))
  | _ => Raise (no_attribute input_str "replace")
  end.

(** [basic_calculator(input_str)]. *)
Definition basic_calculator (rt : runtime) (input_str : pyval)
    : result pyval :=
  match parse_input input_str with
  | Raise e =>
      if is_JSONDecodeError_or_KeyError e
      then Return (PyTuple [PyStr (exn_str e); PyStr invalid_input_hint])
      else Raise e
  | Return (num1, num2, operation) =>
      (* if operation in operations: *)
      match unhashable operation with
      | Some t => Raise (Exn TypeError F[ "unhashable type: "; SQ; t; SQ ])
      | None =>
          match operation with
          | PyStr op =>
              if existsb (Text.eqb op) operations then
                match operate rt op num1 num2 with
                | Text result => Return (PyStr (answer result))
                | Fails message =>
                    Return (PyTuple [PyStr message; PyStr execution_error_hint])
                end
              else Return (PyStr unsupported_operation)
          | _ => Return (PyStr unsupported_operation)
          end
      end
  end.

(** [input_string[::-1]]. *)
Definition reversed (v : pyval) : result pyval :=
  match v with
  | PyStr s => Return (PyStr (rev s))
  | PyList l => Return (PyList (rev l))
  | PyTuple l => Return (PyTuple (rev l))
  | PyDict _ => Raise (Exn TypeError "unhashable type: 'slice'")
  | _ => Raise (Exn TypeError
                  F[ SQ; type_name v; SQ; " object is not subscriptable" ])
  end.

(** [reverse_string(input_string)]; [tail] is the text after the reversed
    string, which differs between the two notebooks. *)
Definition reverse_string_with (tail : pystr) (rt : runtime)
    (input_string : pyval) : result pyval :=
  rbind (reversed input_string) (fun reversed_string =>
  rbind (str_of rt reversed_string) (fun text =>
  Return (PyStr F[ "The reversed string is: "; text; tail ]))).

Definition reverse_string : runtime -> pyval -> result pyval :=
  reverse_string_with
    F[ LF; LF; "Executed using the reverse_string function." ].

Definition basic_calculator_doc : pystr :=
  LINES[
    "";
    "    Perform a numeric operation on two numbers based on the input string.";
    "";
    "    Parameters:";
    "    input_str (str): A JSON string representing a dictionary with keys:";
    "        - 'num1' (int): The first number.";
    "        - 'num2' (int): The second number.";
    "        - 'operation' (str): The operation to perform. Supported operations are 'add', 'subtract',";
    "                             'multiply', 'divide', 'floor_divide', 'modulus', 'power', 'lt',";
    "                             'le', 'eq', 'ne', 'ge', 'gt'.";
    "";
    "    Returns:";
    "    str: The formatted result of the operation.";
    "";
    "    Raises:";
    "    Exception: If an error occurs during the operation (e.g., division by zero).";
    "    ValueError: If an unsupported operation is requested or input is invalid.";
    "    " ].

Definition reverse_string_doc : pystr :=
  LINES[
    "";
    "    Reverse the given string.";
    "";
    "    Parameters:";
    "    - input_string (str): The string to be reversed.";
    "";
    "    Returns:";
    "    str: The reversed string.";
    "    " ].

(** [tools = [basic_calculator, reverse_string]]. *)
Definition tools (rt : runtime) : list tool :=
  [ Tool "basic_calculator" (Some basic_calculator_doc)
      (fun x => lift (basic_calculator rt x));
    Tool "reverse_string" (Some reverse_string_doc)
      (fun x => lift (reverse_string rt x)) ].

End Tools.

(* ===================================================================== *)
(** ** The completion service *)
(* ===================================================================== *)

(** [requests.post(endpoint, headers=headers, data=json.dumps(payload))]
    followed by [response.json()]: the decoded body of the reply, or the
    exception one of the two calls raised. *)
Definition service : Type := pyval -> pyval -> pyval -> result pyval.

(** [json.loads(v)] for any object: only a [str] is decoded. *)
Definition json_loads (v : pyval) : result pyval :=
  match v with
  | PyStr s => Json.loads s
  | _ => Raise (Exn TypeError
                  F[ "the JSON object must be str, bytes or bytearray, not ";
                     type_name v ])
  end.

(** [l[i]] on a list of strings. *)
Definition index (l : list pystr) (i : nat) : result pystr :=
  match nth_error l i with
  | Some x => Return x
  | None => Raise (Exn IndexError "list index out of range")
  end.

(* ===================================================================== *)
(** ** The class [Agent] *)
(* ===================================================================== *)

Module Agent.

Import Tools.

(** The dict that [setup_ollama_model] returns. *)
Record model_config : Type := ModelConfig {
  config_model_endpoint : pyval;
  config_model : pyval;
  config_system_prompt : pystr;
  config_temperature : pyval;
  config_headers : pyval;
  config_stop : pyval
}.

(** [setup_ollama_model(model, system_prompt, temperature=0, stop=None)]. *)
Definition setup_ollama_model (model : pyval) (system_prompt : pystr)
    (temperature stop : pyval) : model_config :=
  {| config_model_endpoint := PyStr "http://localhost:11434/api/generate";
     config_model := model;
     config_system_prompt := system_prompt;
     config_temperature := temperature;
     config_headers := PyDict [(Text.lit "Content-Type", PyStr "application/json")];
     config_stop := stop |}.

(** The attributes of an [Agent] object. *)
Record instance : Type := Instance {
  tools : list tool;
  model_endpoint : pyval;
  model_name : pyval;
  system_prompt : pystr;
  temperature : pyval;
  headers : pyval;
  stop : pyval;
  tool_descriptions : pystr
}.

(** *** [prepare_tools] *)

(** One entry of [param_dict]. *)
Record param : Type := Param {
  param_type : pystr;
  param_description : pystr;
  required : bool
}.

(** One entry of [tools_info]. *)
Record tool_info : Type := ToolInfo {
  info_name : pystr;
  info_description : pystr;
  info_parameters : list (pystr * param)
}.

(** The variables the loop over [parameters_lines] updates. Note that the
    loop assigns to [description], the variable that holds the
    description of the tool. *)
Record loop_state : Type := LoopState {
  param_section_started : bool;
  description : pystr;
  param_dict : list (pystr * param)
}.

(** The body of the loop over [parameters_lines], for one [line]. *)
Definition parameters_line (st : loop_state) (line : pystr)
    : result loop_state :=
  if Text.contains "Parameters:" line then
    Return (LoopState true (description st) (param_dict st))
  else if negb (param_section_started st)
          || Text.eqb (Text.strip line) [] then Return st
  else if Text.contains ": " line then
    let param_name_type_desc := Text.split1 ":" line in
    if Nat.eqb (List.length param_name_type_desc) 2 then
      rbind (index param_name_type_desc 0) (fun param_name_type =>
      rbind (index param_name_type_desc 1) (fun description =>
      rbind (index (Text.split1 "(" param_name_type) 0) (fun name0 =>
      let param_name := Text.strip name0 in
      rbind
        (if Text.contains "(" param_name_type then
           rbind (index (Text.split1 "(" param_name_type) 1) (fun after =>
           index (Text.split1 ")" after) 0)
         else Return (Text.lit "str"))
        (fun param_type =>
      Return (LoopState true description
                (dict_set param_name
                   (Param (Text.strip param_type) (Text.strip description) true)
                   (param_dict st)))))))
    else Return st
  else Return st.

(** The loop over [parameters_lines]. *)
Fixpoint parameters_loop (st : loop_state) (lines : list pystr)
    : result loop_state :=
  match lines with
  | [] => Return st
  | line :: rest =>
      rbind (parameters_line st line) (fun st' => parameters_loop st' rest)
  end.

Definition no_description : pystr := "No description available.".

(** The body of the loop over [self.tools]: the [tool_info] of one tool. *)
Definition describe (tool : Tools.tool) : result tool_info :=
  let name := __name__ tool in
  let docstring :=
    match __doc__ tool with
    | Some ((_ :: _) as doc) => Text.strip doc
    | _ => no_description
    end in
  let parts := Text.split1 F[ LF; LF ] docstring in
  rbind (index parts 0) (fun part0 =>
  rbind (index (Text.split_char 10 part0) 0) (fun description =>
  rbind (if Nat.ltb 1 (List.length parts) then index parts 1
         else Return []) (fun parameters_section =>
  rbind
    (if Text.contains "Parameters:" parameters_section then
       parameters_loop (LoopState false description [])
         (Text.split_char 10 parameters_section)
     else Return (LoopState false description []))
    (fun st =>
  Return (ToolInfo name (Agent.description st) (param_dict st)))))).

(** [tools_info] after the loop. *)
Fixpoint tools_info_of (tools : list Tools.tool) : result (list tool_info) :=
  match tools with
  | [] => Return []
  | tool :: rest =>
      rbind (describe tool) (fun info =>
      rbind (tools_info_of rest) (fun infos => Return (info :: infos)))
  end.

(** The dict [tool_info] as a JSON document. *)
Definition info_doc (info : tool_info) : Json.jdoc :=
  Json.JObject
    [ (Text.lit "name", Json.JString (info_name info));
      (Text.lit "description", Json.JString (info_description info));
      (Text.lit "parameters",
        Json.JObject
          (List.map (fun kv =>
             (fst kv,
              Json.JObject
                [ (Text.lit "param_type", Json.JString (param_type (snd kv)));
                  (Text.lit "description",
                     Json.JString (param_description (snd kv)));
                  (Text.lit "required", Json.JBool (required (snd kv))) ]))
             (info_parameters info))) ].

(** One line of [tools_description]. *)
Definition info_text (info : tool_info) : pystr :=
  F[ "Use the function '"; info_name info; "' to: "; info_description info;
     LF; Json.dumps_indent2 (info_doc info) ].

(** [self.prepare_tools()], as a function of [self.tools]. *)
Definition prepare_tools (tools : list Tools.tool) : result pystr :=
  rbind (tools_info_of tools) (fun tools_info =>
  Return (Text.join LF (List.map info_text tools_info))).

(** [Agent(tools, model_config)]. *)
Definition __init__ (tools : list Tools.tool) (config : model_config)
    : result instance :=
  rbind (prepare_tools tools) (fun descriptions =>
  Return {| tools := tools;
            model_endpoint := config_model_endpoint config;
            model_name := config_model config;
            system_prompt := config_system_prompt config;
            temperature := config_temperature config;
            headers := config_headers config;
            stop := config_stop config;
            tool_descriptions := descriptions |}).

(** *** [think] *)

Definition payload (self : instance) (prompt system : pystr) : pyval :=
  PyDict
    [ (Text.lit "model", model_name self);
      (Text.lit "format", PyStr "json");
      (Text.lit "prompt", PyStr prompt);
      (Text.lit "system", PyStr system);
      (Text.lit "stream", PyBool false);
      (Text.lit "temperature", temperature self);
      (Text.lit "stop", stop self) ].

(** [self.think(prompt)]. *)
Definition think (rt : runtime) (post : service) (self : instance)
    (prompt : pystr) : M pyval :=
  system <- lift (str_format rt (system_prompt self) (tool_descriptions self)) ;;
  try_except
    (response_json <-
       lift (post (model_endpoint self) (headers self)
               (payload self prompt system)) ;;
     text <- lift (getitem response_json "response") ;;
     response_dict <- lift (json_loads text) ;;
     shown <- lift (str_of rt response_dict) ;;
     print (Plain F[ LF; LF; "Response from model: "; shown ]) ;;;
     ret response_dict)
    is_RequestException
    (fun e =>
       print (Plain F[ "Error in invoking model! "; exn_str e ]) ;;;
       ret (PyDict [(Text.lit "error", PyStr (exn_str e))])).

(** *** [execute_tool] *)

(** The three lines [execute_tool] can print. *)
Definition result_line (text : pystr) : printed := Colored text Cyan.
Definition execution_error_line (tool_choice message : pystr) : printed :=
  Colored F[ "Error executing tool "; tool_choice; ": "; message ] Red.
Definition not_found_line (tool_choice : pystr) : printed :=
  Colored F[ "Tool "; tool_choice; " not found or unsupported operation." ] Red.

(** [tool.__name__ == tool_choice]. *)
Definition name_is (tool : Tools.tool) (tool_choice : pyval) : bool :=
  match tool_choice with
  | PyStr s => Text.eqb (__name__ tool) s
  | _ => false
  end.

(** Some tool of the list has the name [name]: the test of the loop
    succeeds for one of them. *)
Definition registered (name : pystr) (tools : list Tools.tool) : bool :=
  existsb (fun tool => name_is tool (PyStr name)) tools.

(** The loop over [self.tools] and the line after it. *)
Fixpoint dispatch (rt : runtime) (tools : list Tools.tool)
    (tool_choice tool_input : pyval) : M pyval :=
  match tools with
  | tool :: rest =>
      if name_is tool tool_choice then
        try_except
          (result <- call tool tool_input ;;
           text <- lift (str_of rt result) ;;
           print (result_line text))
          is_Exception
          (fun e =>
             choice <- lift (str_of rt tool_choice) ;;
             print (execution_error_line choice (exn_str e))) ;;;
        ret PyNone
      else dispatch rt rest tool_choice tool_input
  | [] =>
      text <- lift (str_of rt tool_choice) ;;
      print (not_found_line text) ;;;
      ret PyNone
  end.

(** [self.execute_tool(response)]. *)
Definition execute_tool (rt : runtime) (self : instance) (response : pyval)
    : M pyval :=
  tool_choice <- lift (dict_method_get response "tool_choice") ;;
  tool_input <- lift (dict_method_get response "tool_input") ;;
  dispatch rt (tools self) tool_choice tool_input.

(** *** [work] *)

(** [self.work(prompt)]. *)
Definition work (rt : runtime) (post : service) (self : instance)
    (prompt : pystr) : M pyval :=
  response <- think rt post self prompt ;;
  execute_tool rt self response ;;;
  ret PyNone.

End Agent.

(* ===================================================================== *)
(** ** The functions of the Mistral notebook *)
(* ===================================================================== *)

Module Mistral.

Import Tools.

Definition basic_calculator_doc : pystr :=
  LINES[
    "";
    "    Perform a numeric operation on two numbers based on the input string.";
    "";
    "    Parameters:";
    "    input_str (str): A JSON string representing a dictionary with keys 'num1', 'num2', and 'operation'.";
    F[ "                     Example: '{"; DQ; "num1"; DQ; ": 5, "; DQ; "num2";
       DQ; ": 3, "; DQ; "operation"; DQ; ": "; DQ; "add"; DQ; "}' or "; DQ;
       "{'num1': 67869, 'num2': 9030393, 'operation': 'divide'}"; DQ ];
    "";
    "    Returns:";
    "    str: The formatted result of the operation.";
    "";
    "    Raises:";
    "    Exception: If an error occurs during the operation (e.g., division by zero).";
    "    ValueError: If an unsupported operation is requested or input is invalid.";
    "    " ].

Definition reverse_string_doc : pystr :=
  LINES[
    "";
    "    Reverse the given string.";
    "";
    "    Parameters:";
    "    input_string (str): The string to be reversed.";
    "";
    "    Returns:";
    "    str: The reversed string.";
    "    " ].

Definition reverse_string : runtime -> pyval -> result pyval :=
  reverse_string_with
    F[ LF; LF; ".Executed using the reverse_string function." ].

(** [tools = [basic_calculator, reverse_string]]. *)
Definition tools (rt : runtime) : list tool :=
  [ Tool "basic_calculator" (Some basic_calculator_doc)
      (fun x => lift (basic_calculator rt x));
    Tool "reverse_string" (Some reverse_string_doc)
      (fun x => lift (reverse_string rt x)) ].

(** The dict comprehension [{tool.__name__: tool.__doc__ for tool in tools}]. *)
Definition tools_dict (tools : list tool) : list (pystr * option pystr) :=
  fold_left (fun d tool => dict_set (__name__ tool) (__doc__ tool) d) tools [].

(** [prepare_tools(tools)]. *)
Definition prepare_tools (tools : list tool) : pystr :=
  Text.join LF
    (List.map (fun kv =>
       F[ fst kv; ": "; DQ;
          match snd kv with Some desc => desc | None => Text.lit "None" end;
          DQ ])
       (tools_dict tools)).

(** [generate_response(prompt, config)]; the globals
    [agent_system_prompt_template] and [tools_description] are the first
    two arguments. *)
Definition generate_response (rt : runtime) (post : service)
    (agent_system_prompt_template tools_description : pystr)
    (prompt : pystr) (config : Agent.model_config) : M pyval :=
  agent_system_prompt <-
    lift (str_format rt agent_system_prompt_template tools_description) ;;
  let payload :=
    PyDict
      [ (Text.lit "model", Agent.config_model config);
        (Text.lit "format", PyStr "json");
        (Text.lit "prompt", PyStr prompt);
        (Text.lit "system", PyStr agent_system_prompt);
        (Text.lit "stream", PyBool false);
        (Text.lit "temperature", Agent.config_temperature config);
        (Text.lit "stop", Agent.config_stop config) ] in
  try_except
    (response_json <-
       lift (post (Agent.config_model_endpoint config)
               (Agent.config_headers config) payload) ;;
     text <- lift (getitem response_json "response") ;;
     response_dict <- lift (json_loads text) ;;
     shown <- lift (str_of rt response_dict) ;;
     print (Plain F[ LF; LF; "Response from Ollama model: "; shown ]) ;;;
     ret response_dict)
    is_RequestException
    (fun e =>
       print (Plain F[ "Error in invoking model! "; exn_str e ]) ;;;
       ret (PyDict [(Text.lit "error", PyStr (exn_str e))])).

(** The loop of [execute_tool] and the line after it. *)
Fixpoint dispatch (rt : runtime) (tools : list tool)
    (tool_choice tool_input : pyval) : M pyval :=
  match tools with
  | tool :: rest =>
      if Agent.name_is tool tool_choice then
        result <- call tool tool_input ;;
        text <- lift (str_of rt result) ;;
        print (Colored text Cyan) ;;;
        ret PyNone
      else dispatch rt rest tool_choice tool_input
  | [] =>
      text <- lift (str_of rt tool_input) ;;
      print (Colored text Cyan) ;;;
      ret PyNone
  end.

(** [execute_tool(response, tools)]. *)
Definition execute_tool (rt : runtime) (response : pyval) (tools : list tool)
    : M pyval :=
  tool_choice <- lift (dict_method_get response "tool_choice") ;;
  tool_input <- lift (dict_method_get response "tool_input") ;;
  dispatch rt tools tool_choice tool_input.

End Mistral.

(* ===================================================================== *)
(** ** The setting of the notebooks *)
(* ===================================================================== *)

Module Notebook.

(** [agent_system_prompt_template] of the notebook that defines [Agent]. *)
Definition agent_system_prompt_template : pystr :=
  LINES[
    "";
    "Environment: ipython";
    "";
    "";
    "Cutting Knowledge Date: December 2023";
    "Today Date: July 2024";
    "";
    "You have access to the following functions:";
    "";
    "{tool_descriptions}";
    "Think very carefully before calling functions.";
    "If you choose to call a function ONLY reply in the JSON format with no prefix or suffix:";
    "";
    F[ DQ; "tool_choice"; DQ; ": "; DQ; "name_of_the_tool"; DQ; "," ];
    F[ DQ; "tool_input"; DQ; ": "; DQ; "inputs_to_the_tool"; DQ ];
    "";
    "- `tool_choice`: The name of the tool you want to use. It must be a tool from your toolbox ";
    F[ "                or "; DQ; "no tool"; DQ; " if you do not need to use a tool." ];
    "- `tool_input`: The specific inputs required for the selected tool. ";
    "                If no tool, just provide a response to the query.";
    "";
    "Reminder:";
    "- If looking for real time information use relevant functions before falling back to brave_search";
    "- Function calls MUST follow the specified format, start with <function= and end with </function>";
    "- Required parameters MUST be specified";
    "- Only call one function at a time";
    "- Put the entire function call reply on one line";
    "";
    "You are a helpful Assistant.";
    "" ].

(** [ollama_config]. *)
Definition ollama_config : Agent.model_config :=
  Agent.setup_ollama_model (PyStr "llama3.1") agent_system_prompt_template
    (PyInt 0) PyNone.

(** [t.format(tool_descriptions=d)] for a template [t] whose only braces
    are those of [{tool_descriptions}]: the text with the placeholder
    replaced. With other braces the interpreter raises; the [ValueError] of
    a lone brace stands for all of these cases. *)
Fixpoint format_fuel (fuel : nat) (t d : pystr) : result pystr :=
  match fuel with
  | O => Return t
  | S f =>
      match Text.cut "{tool_descriptions}" t with
      | Some (before, after) =>
          if existsb (fun c => (c =? 123)%N || (c =? 125)%N) before
          then Raise (Exn ValueError "Single '{' encountered in format string")
          else rbind (format_fuel f after d) (fun rest =>
               Return F[ before; d; rest ])
      | None =>
          if existsb (fun c => (c =? 123)%N || (c =? 125)%N) t
          then Raise (Exn ValueError "Single '{' encountered in format string")
          else Return t
      end
  end.

(** An interpreter for the runs of this file, which use integers and ASCII
    text: arithmetic outside the integers is refused with the message of a
    [TypeError], a float prints as it was read and every code point from
    128 on counts as printable. *)
Definition interpreter : runtime :=
  {| binop_text := fun op a b =>
       Fails F[ "unsupported operand type(s): '"; type_name a; "' and '";
                type_name b; "'" ];
     float_repr := fun literal => literal;
     isprintable := fun _ => true;
     str_format := fun t d => format_fuel (List.length t) t d |}.

(** A completion service that answers every request with the generated
    text [reply]. *)
Definition replying (reply : pystr) : service :=
  fun _ _ _ => Return (PyDict [(Text.lit "response", PyStr reply)]).

(** A completion service that cannot be reached. *)
Definition unreachable (message : pystr) : service :=
  fun _ _ _ => Raise (Exn RequestException message).

(** A decision of the model, as [think] returns it. *)
Definition decision (tool_choice tool_input : pystr) : pyval :=
  PyDict [(Text.lit "tool_choice", PyStr tool_choice);
          (Text.lit "tool_input", PyStr tool_input)].

(** The same decision as the model writes it: a JSON object with the two
    keys, for texts without characters that JSON escapes. *)
Definition decision_text (tool_choice tool_input : pystr) : pystr :=
  F[ "{"; DQ; "tool_choice"; DQ; ": "; DQ; tool_choice; DQ; ", ";
     DQ; "tool_input"; DQ; ": "; DQ; tool_input; DQ; "}" ].

(** The input of [basic_calculator] as the model writes it: a JSON object
    with the two numbers and the name of the operation. *)
Definition calculator_input (num1 num2 operation : pystr) : pystr :=
  F[ "{"; DQ; "num1"; DQ; ": "; num1; ", "; DQ; "num2"; DQ; ": "; num2; ", ";
     DQ; "operation"; DQ; ": "; DQ; operation; DQ; "}" ].

(** The attributes of [agent = Agent(tools=tools, model_config=ollama_config)]
    when [prepare_tools] returned [descriptions]. *)
Definition agent_with (rt : runtime) (descriptions : pystr) : Agent.instance :=
  {| Agent.tools := Tools.tools rt;
     Agent.model_endpoint := Agent.config_model_endpoint ollama_config;
     Agent.model_name := Agent.config_model ollama_config;
     Agent.system_prompt := Agent.config_system_prompt ollama_config;
     Agent.temperature := Agent.config_temperature ollama_config;
     Agent.headers := Agent.config_headers ollama_config;
     Agent.stop := Agent.config_stop ollama_config;
     Agent.tool_descriptions := descriptions |}.

(** [agent = Agent(tools=tools, model_config=ollama_config)]; the
    constructor returns, see [agent_is_constructed]. *)
Definition agent (rt : runtime) : Agent.instance :=
  match Agent.__init__ (Tools.tools rt) ollama_config with
  | Return self => self
  | Raise _ => agent_with rt []
  end.

(** The two replies recorded in the notebook, for the prompts "What is
    5+5?" and "Reverse this string: I want to be reversed!". *)
Definition recorded_calculator_input : pystr :=
  F[ "{"; DQ; "num1"; DQ; ": 5, "; DQ; "operation"; DQ; ": "; DQ; "add"; DQ;
     ", "; DQ; "num2"; DQ; ": 5}" ].
Definition recorded_reply_1 : pystr :=
  let q : pystr := [92%N; 34%N] in
  F[ "{"; DQ; "tool_choice"; DQ; ": "; DQ; "basic_calculator"; DQ; ", ";
     DQ; "tool_input"; DQ; ": "; DQ;
     "{"; q; "num1"; q; ": 5, "; q; "operation"; q; ": "; q; "add"; q;
     ", "; q; "num2"; q; ": 5}"; DQ; "}" ].
Definition recorded_reply_2 : pystr :=
  decision_text "reverse_string" "I want to be reversed!".

(** Replies that are not the JSON the prompt asks for: plain prose, and
    the decision written with single quotes. *)
Definition prose_reply : pystr := "Sure! 5 + 5 equals 10.".
Definition single_quoted_reply : pystr :=
  "{'tool_choice': 'no tool', 'tool_input': 'hello'}".

(** Two tools that share the name [lookup]. *)
Definition lookup_first : Tools.tool :=
  Tools.Tool "lookup" (Some (Text.lit "Look a word up in the first dictionary."))
    (fun _ => ret (PyStr "first")).
Definition lookup_second : Tools.tool :=
  Tools.Tool "lookup" (Some (Text.lit "Look a word up in the second dictionary."))
    (fun _ => ret (PyStr "second")).

(** A tool whose documentation has a parameter line without a type in
    parentheses and a parameter line without a colon. *)
Definition convert_doc : pystr :=
  LINES[ "Convert a temperature.";
         "";
         "Parameters:";
         "degrees: The temperature in Celsius.";
         "scale (str) The target scale." ].
Definition convert : Tools.tool :=
  Tools.Tool "convert" (Some convert_doc) (fun x => ret x).

End Notebook.

(* ===================================================================== *)
(** * Properties *)
(* ===================================================================== *)

(** ** Text and effects *)

Lemma eqb_eq a b : Text.eqb a b = true <-> a = b.
Proof.
  unfold Text.eqb; destruct (list_eq_dec N.eq_dec a b); split; congruence.
Qed.

Lemma eqb_refl a : Text.eqb a a = true.
Proof. apply eqb_eq; reflexivity. Qed.

Lemma eqb_neq a b : Text.eqb a b = false <-> a <> b.
Proof.
  unfold Text.eqb; destruct (list_eq_dec N.eq_dec a b); split; congruence.
Qed.

Lemma bind_lift_Return {A B} (a : A) (k : A -> M B) :
  bind (lift (Return a)) k = k a.
Proof. unfold bind, lift; destruct (k a); reflexivity. Qed.

Lemma bind_lift_Raise {A B} (e : exn) (k : A -> M B) :
  bind (lift (Raise e)) k = ([], Raise e).
Proof. reflexivity. Qed.

Lemma str_of_PyStr rt s : str_of rt (PyStr s) = Return s.
Proof. reflexivity. Qed.

(** ** [json.loads] has enough fuel *)

Lemma advances_longer {A} (s s' : pystr) (res : Json.scan A) :
  Json.advances s' res -> List.length s' <= List.length s -> Json.advances s res.
Proof. destruct res; cbn; intros; auto; lia. Qed.

Lemma skip_ws_length s : forall p, List.length (fst (Json.skip_ws s p)) <= List.length s.
Proof.
  induction s as [|c s IH]; intros p; cbn [Json.skip_ws]; [cbn; lia|].
  destruct (Json.is_ws c); [specialize (IH (S p)); cbn [List.length]; lia|cbn; lia].
Qed.

Lemma second_escape_length s lo rest :
  Json.second_escape s = Some (lo, rest) ->
  exists a b c d e f, s = a :: b :: c :: d :: e :: f :: rest.
Proof.
  unfold Json.second_escape.
  destruct s as [|a [|b [|c [|d [|e [|f [|g rest']]]]]]]; try discriminate.
  destruct ((a =? 92)%N && (b =? 117)%N); [|discriminate].
  intros H; inversion H; subst. do 6 eexists. reflexivity.
Qed.

Lemma scanstring_advances n : forall s, List.length s <= n ->
  forall start pos acc, Json.advances s (Json.scanstring start pos s acc).
Proof.
  induction n as [|n IH]; intros s Hn start pos acc.
  - destruct s; [exact I|cbn in Hn; lia].
  - destruct s as [|c r]; [exact I|].
    cbn [Json.scanstring].
    destruct (c =? 34)%N; [cbn; lia|].
    destruct (c =? 92)%N.
    + destruct r as [|e r1]; [exact I|].
      destruct (e =? 117)%N.
      * destruct r1 as [|a1 [|a2 [|a3 [|a4 [|x r5]]]]]; try exact I.
        destruct (Json.hex4 a1 a2 a3 a4) as [hi|]; [|exact I].
        assert (Hrec : forall p acc', Json.advances (c :: e :: a1 :: a2 :: a3 :: a4 :: x :: r5)
                   (Json.scanstring start p (x :: r5) acc')).
        { intros p acc'. eapply advances_longer; [apply IH; cbn in Hn |- *; lia|cbn; lia]. }
        destruct (Json.is_high_surrogate hi); [|apply Hrec].
        destruct (Json.second_escape (x :: r5)) as [[[lo|] rest]|] eqn:E; try apply Hrec; try exact I.
        destruct (Json.is_low_surrogate lo); [|apply Hrec].
        destruct (second_escape_length _ E) as (b1 & b2 & b3 & b4 & b5 & b6 & Heq).
        inversion Heq; subst.
        eapply advances_longer; [apply IH; cbn in Hn |- *; lia|cbn; lia].
      * destruct (Json.simple_escape e); [|exact I].
        eapply advances_longer; [apply IH; cbn in Hn |- *; lia|cbn; lia].
    + destruct (c <=? 31)%N; [exact I|].
      eapply advances_longer; [apply IH; cbn in Hn |- *; lia|cbn; lia].
Qed.

Lemma span_digits_length s :
  List.length (snd (Json.span_digits s)) <= List.length s.
Proof.
  induction s as [|c s IH]; cbn [Json.span_digits]; [cbn; lia|].
  destruct (Json.is_digit c); [|cbn; lia].
  destruct (Json.span_digits s) as [d r]. cbn in *. lia.
Qed.

Lemma int_part_length s ds r :
  Json.int_part s = Some (ds, r) -> List.length r < List.length s.
Proof.
  unfold Json.int_part. destruct s as [|c s]; [discriminate|].
  destruct (c =? 48)%N; [intros H; inversion H; subst; cbn; lia|].
  destruct (Json.is_digit c); [|discriminate].
  pose proof (span_digits_length s) as Hs.
  destruct (Json.span_digits s) as [d r']. intros H; inversion H; subst.
  cbn in *. lia.
Qed.

Lemma frac_part_length s :
  List.length (snd (Json.frac_part s)) <= List.length s.
Proof.
  unfold Json.frac_part. destruct s as [|c s]; [cbn; lia|].
  destruct (c =? 46)%N; [|cbn; lia].
  pose proof (span_digits_length s) as Hs.
  destruct (Json.span_digits s) as [[|d ds] r]; cbn in *; lia.
Qed.

Lemma exp_part_length s :
  List.length (snd (Json.exp_part s)) <= List.length s.
Proof.
  unfold Json.exp_part. destruct s as [|c s]; [cbn; lia|].
  destruct ((c =? 101) || (c =? 69))%N; [|cbn; lia].
  destruct s as [|g t].
  - cbn. lia.
  - destruct ((g =? 45) || (g =? 43))%N.
    + pose proof (span_digits_length t) as Hs.
      destruct (Json.span_digits t) as [[|d ds] r]; cbn in *; lia.
    + pose proof (span_digits_length (g :: t)) as Hs.
      destruct (Json.span_digits (g :: t)) as [[|d ds] r]; cbn in *; lia.
Qed.

Lemma match_number_advances pos s : Json.advances s (Json.match_number pos s).
Proof.
  unfold Json.match_number.
  set (nb := match s with
             | c :: s' => if (c =? 45)%N then (true, s') else (false, s)
             | [] => (false, s)
             end).
  assert (Hbody : List.length (snd nb) <= List.length s).
  { subst nb. destruct s as [|c s']; [cbn; lia|].
    destruct (c =? 45)%N; cbn; lia. }
  destruct nb as [neg body]. cbn [snd] in Hbody.
  destruct (Json.int_part body) as [[ds r]|] eqn:Hint; [|exact I].
  apply int_part_length in Hint.
  pose proof (frac_part_length r) as Hf.
  destruct (Json.frac_part r) as [fr r1]. cbn [snd] in Hf.
  pose proof (exp_part_length r1) as He.
  destruct (Json.exp_part r1) as [ex r2]. cbn [snd] in He.
  destruct fr, ex; try (cbn; lia).
  destruct (Nat.ltb int_max_str_digits (List.length ds)); cbn; [exact I|lia].
Qed.

Lemma startswith_length p s :
  Text.startswith p s = true -> List.length p <= List.length s.
Proof.
  revert s. induction p as [|a p IH]; intros s H; [cbn; lia|].
  destruct s as [|b s]; [discriminate H|].
  cbn in H. apply andb_true_iff in H as [_ H]. apply IH in H. cbn. lia.
Qed.

Lemma constant_advances s v n :
  Json.constant s = Some (v, n) -> List.length (skipn n s) < List.length s.
Proof.
  unfold Json.constant. intros H.
  repeat match type of H with
  | (if Text.startswith ?p s then _ else _) = _ =>
      let E := fresh "E" in
      destruct (Text.startswith p s) eqn:E;
      [apply startswith_length in E; inversion H; subst;
       rewrite length_skipn; cbn in E |- *; lia|]
  end.
  discriminate H.
Qed.

Lemma advances_shorter {A} s (res : Json.scan A) : Json.advances s res -> Json.shorter s res.
Proof. destruct res; cbn; auto. Qed.

Lemma shorter_longer {A} (s s' : pystr) (res : Json.scan A) :
  Json.shorter s' res -> List.length s' <= List.length s -> Json.shorter s res.
Proof. destruct res; cbn; intros; auto; lia. Qed.

Tactic Notation "skip_ws_step" constr(r) constr(p) "as" ident(r') ident(p') :=
  let H := fresh "Hws" in
  pose proof (skip_ws_length r p) as H;
  destruct (Json.skip_ws r p) as [r' p']; cbn [fst] in H.

Lemma scan_shorter fuel :
  (forall pos s, Json.shorter s (Json.scan_once fuel pos s))
  /\ (forall pos s acc, Json.shorter s (Json.object_loop fuel pos s acc))
  /\ (forall pos s acc, Json.shorter s (Json.array_loop fuel pos s acc)).
Proof.
  induction fuel as [|f (IHscan & IHobj & IHarr)]; [repeat split; intros; exact I|].
  repeat split.
  - intros pos s. cbn [Json.scan_once].
    destruct s as [|c r]; [exact I|].
    destruct (c =? 34)%N.
    { pose proof (scanstring_advances (n := List.length r) r (le_n _) pos (S pos) [])
        as Hs.
      destruct (Json.scanstring pos (S pos) r []); cbn in *; auto; lia. }
    destruct (c =? 123)%N.
    { skip_ws_step r (S pos) as r' p'.
      destruct r' as [|c' r''].
      - eapply shorter_longer; [apply IHobj|cbn in *; lia].
      - destruct (c' =? 125)%N; [cbn in *; lia|].
        eapply shorter_longer; [apply IHobj|cbn in *; lia]. }
    destruct (c =? 91)%N.
    { skip_ws_step r (S pos) as r' p'.
      destruct r' as [|c' r''].
      - eapply shorter_longer; [apply IHarr|cbn in *; lia].
      - destruct (c' =? 93)%N; [cbn in *; lia|].
        eapply shorter_longer; [apply IHarr|cbn in *; lia]. }
    destruct (Json.constant (c :: r)) as [[v n]|] eqn:Hc.
    + apply constant_advances in Hc. exact Hc.
    + apply advances_shorter, match_number_advances.
  - intros pos s acc. cbn [Json.object_loop].
    destruct s as [|c r]; [exact I|].
    destruct (negb (c =? 34)%N); [exact I|].
    pose proof (scanstring_advances (n := List.length r) r (le_n _) pos (S pos) [])
      as Hs.
    destruct (Json.scanstring pos (S pos) r []) as [key r1 p1| |]; try exact I.
    cbn [Json.advances] in Hs.
    skip_ws_step r1 p1 as r2 p2.
    destruct r2 as [|c2 r3]; [exact I|].
    destruct (negb (c2 =? 58)%N); [exact I|].
    skip_ws_step r3 (S p2) as r4 p4.
    specialize (IHscan p4 r4).
    destruct (Json.scan_once f p4 r4) as [v r5 p5| |]; try exact I.
    cbn [Json.shorter] in IHscan.
    skip_ws_step r5 p5 as r6 p6.
    destruct r6 as [|c6 r7]; [exact I|].
    destruct (c6 =? 125)%N; [cbn in *; lia|].
    destruct (c6 =? 44)%N; [|exact I].
    skip_ws_step r7 (S p6) as r8 p8.
    eapply shorter_longer; [apply IHobj|cbn in *; lia].
  - intros pos s acc. cbn [Json.array_loop].
    specialize (IHscan pos s).
    destruct (Json.scan_once f pos s) as [v r1 p1| |]; try exact I.
    cbn [Json.shorter] in IHscan.
    skip_ws_step r1 p1 as r2 p2.
    destruct r2 as [|c r3]; [exact I|].
    destruct (c =? 93)%N; [cbn in *; lia|].
    destruct (c =? 44)%N; [|exact I].
    skip_ws_step r3 (S p2) as r4 p4.
    eapply shorter_longer; [apply IHarr|cbn in *; lia].
Qed.

Lemma scanstring_fuel start pos s acc :
  Json.scanstring start pos s acc <> Json.OutOfFuel.
Proof.
  pose proof (scanstring_advances (n := List.length s) s (le_n _) start pos acc) as H.
  intros E. rewrite E in H. exact H.
Qed.

Lemma match_number_fuel pos s : Json.match_number pos s <> Json.OutOfFuel.
Proof.
  pose proof (match_number_advances pos s) as H.
  intros E. rewrite E in H. exact H.
Qed.

Lemma scan_fuel fuel :
  (forall pos s, 2 * List.length s + 1 <= fuel ->
     Json.scan_once fuel pos s <> Json.OutOfFuel)
  /\ (forall pos s acc, 2 * List.length s + 2 <= fuel ->
        Json.object_loop fuel pos s acc <> Json.OutOfFuel)
  /\ (forall pos s acc, 2 * List.length s + 2 <= fuel ->
        Json.array_loop fuel pos s acc <> Json.OutOfFuel).
Proof.
  induction fuel as [|f (IHscan & IHobj & IHarr)];
    [repeat split; intros; lia|].
  repeat split.
  - intros pos s Hfuel. cbn [Json.scan_once].
    destruct s as [|c r]; [discriminate|].
    cbn [List.length] in Hfuel.
    destruct (c =? 34)%N.
    { pose proof (@scanstring_fuel pos (S pos) r []) as Hs.
      destruct (Json.scanstring pos (S pos) r []); congruence. }
    destruct (c =? 123)%N.
    { skip_ws_step r (S pos) as r' p'.
      destruct r' as [|c' r''].
      - apply IHobj. cbn in *; lia.
      - destruct (c' =? 125)%N; [discriminate|].
        apply IHobj. cbn in *; lia. }
    destruct (c =? 91)%N.
    { skip_ws_step r (S pos) as r' p'.
      destruct r' as [|c' r''].
      - apply IHarr. cbn in *; lia.
      - destruct (c' =? 93)%N; [discriminate|].
        apply IHarr. cbn in *; lia. }
    destruct (Json.constant (c :: r)) as [[v n]|]; [discriminate|].
    apply match_number_fuel.
  - intros pos s acc Hfuel. cbn [Json.object_loop].
    destruct s as [|c r]; [discriminate|].
    cbn [List.length] in Hfuel.
    destruct (negb (c =? 34)%N); [discriminate|].
    pose proof (scanstring_advances (n := List.length r) r (le_n _) pos (S pos) [])
      as Hs.
    destruct (Json.scanstring pos (S pos) r []) as [key r1 p1| |];
      [|discriminate|contradiction].
    cbn [Json.advances] in Hs.
    skip_ws_step r1 p1 as r2 p2.
    destruct r2 as [|c2 r3]; [discriminate|].
    destruct (negb (c2 =? 58)%N); [discriminate|].
    skip_ws_step r3 (S p2) as r4 p4.
    assert (Hscan : Json.scan_once f p4 r4 <> Json.OutOfFuel)
      by (apply IHscan; cbn in *; lia).
    pose proof (proj1 (scan_shorter f) p4 r4) as Hshort.
    destruct (Json.scan_once f p4 r4) as [v r5 p5| |];
      [|discriminate|contradiction].
    cbn [Json.shorter] in Hshort.
    skip_ws_step r5 p5 as r6 p6.
    destruct r6 as [|c6 r7]; [discriminate|].
    destruct (c6 =? 125)%N; [discriminate|].
    destruct (c6 =? 44)%N; [|discriminate].
    skip_ws_step r7 (S p6) as r8 p8.
    apply IHobj. cbn in *; lia.
  - intros pos s acc Hfuel. cbn [Json.array_loop].
    assert (Hscan : Json.scan_once f pos s <> Json.OutOfFuel)
      by (apply IHscan; lia).
    pose proof (proj1 (scan_shorter f) pos s) as Hshort.
    destruct (Json.scan_once f pos s) as [v r1 p1| |];
      [|discriminate|contradiction].
    cbn [Json.shorter] in Hshort.
    skip_ws_step r1 p1 as r2 p2.
    destruct r2 as [|c r3]; [discriminate|].
    destruct (c =? 93)%N; [discriminate|].
    destruct (c =? 44)%N; [|discriminate].
    skip_ws_step r3 (S p2) as r4 p4.
    apply IHarr. cbn in *; lia.
Qed.

(** [loads] gives the scanner enough fuel: a document is either decoded
    or rejected with [JSONDecodeError] or [ValueError]. *)
Theorem loads_decodes_or_rejects doc :
  (exists v, Json.loads doc = Return v)
  \/ (exists e, Json.loads doc = Raise e
                /\ (exn_cls e = JSONDecodeError \/ exn_cls e = ValueError)).
Proof.
  unfold Json.loads.
  destruct (Text.startswith [65279%N] doc); [right; eexists; split; [reflexivity|left; reflexivity]|].
  pose proof (skip_ws_length doc 0) as Hws.
  destruct (Json.skip_ws doc 0) as [s p]. cbn [fst] in Hws.
  assert (Hfuel : Json.scan_once (Json.fuel_for (List.length doc)) p s
                  <> Json.OutOfFuel).
  { apply (proj1 (scan_fuel _)). unfold Json.fuel_for. lia. }
  destruct (Json.scan_once (Json.fuel_for (List.length doc)) p s)
    as [v rest p'|err|]; [| |contradiction].
  - destruct (Json.skip_ws rest p') as [rest' p''].
    destruct rest'; [left; eauto|].
    right; eexists; split; [reflexivity|left; reflexivity].
  - right; eexists; split; [reflexivity|]. destruct err; [left|right]; reflexivity.
Qed.

(** ** Dispatch in [Agent.execute_tool] *)

Section AgentDispatch.

Import Tools.
Variable rt : runtime.

Lemma name_is_true tool name :
  __name__ tool = name -> Agent.name_is tool (PyStr name) = true.
Proof. intros H; simpl; apply eqb_eq; exact H. Qed.

(** When no tool has the chosen name the loop calls no tool and the line
    after the loop is printed. *)
Lemma dispatch_unregistered tools name tool_input :
  Agent.registered name tools = false ->
  Agent.dispatch rt tools (PyStr name) tool_input
  = ([Agent.not_found_line name], Return PyNone).
Proof.
  unfold Agent.registered.
  induction tools as [|tool rest IH]; intros Hno.
  - reflexivity.
  - cbn [existsb] in Hno. apply orb_false_iff in Hno as [Hhead Hrest].
    cbn [Agent.dispatch]. rewrite Hhead. apply IH. exact Hrest.
Qed.

(** The loop stops at the first tool with the chosen name. *)
Lemma dispatch_first_match before tool after name tool_input :
  Agent.registered name before = false ->
  __name__ tool = name ->
  Agent.dispatch rt (before ++ tool :: after) (PyStr name) tool_input
  = Agent.dispatch rt [tool] (PyStr name) tool_input.
Proof.
  unfold Agent.registered.
  induction before as [|b before IH]; intros Hno Hname.
  - cbn [app Agent.dispatch]. rewrite (name_is_true tool Hname). reflexivity.
  - cbn [existsb] in Hno. apply orb_false_iff in Hno as [Hhead Hrest].
    cbn [app Agent.dispatch]. rewrite Hhead. apply IH; assumption.
Qed.

(** A tool that raises an [Exception] is reported on a red line and the
    call returns normally. *)
Lemma dispatch_tool_raises tool rest tool_input out e :
  call tool tool_input = (out, Raise e) ->
  is_Exception e = true ->
  Agent.dispatch rt (tool :: rest) (PyStr (__name__ tool)) tool_input
  = (out ++ [Agent.execution_error_line (__name__ tool) (exn_str e)],
     Return PyNone).
Proof.
  intros Hcall Hexn. cbn [Agent.dispatch].
  rewrite (name_is_true tool eq_refl).
  unfold try_except, bind. rewrite Hcall, Hexn. cbn.
  rewrite app_nil_r. reflexivity.
Qed.


(** [execute_tool] on a response that is a dict. *)
Lemma execute_tool_dict self d :
  Agent.execute_tool rt self (PyDict d)
  = Agent.dispatch rt (Agent.tools self)
      (match dict_get "tool_choice" d with Some v => v | None => PyNone end)
      (match dict_get "tool_input" d with Some v => v | None => PyNone end).
Proof.
  unfold Agent.execute_tool, dict_method_get.
  destruct (dict_get "tool_choice" d), (dict_get "tool_input" d);
    rewrite !bind_lift_Return; reflexivity.
Qed.

End AgentDispatch.

(** ** The dispatcher: claims C1, C2, C3 and C5 *)

(** C1. The claim asks that the decision with tool_choice
    "basic_calculator" and tool_input
    {"num1": 1, "num2": 0, "operation": "divide"} ends in the error line of
    a failed tool. It does not: [basic_calculator] catches the division by
    zero itself and returns a pair of strings, and [execute_tool] prints
    that pair on the cyan line of a result. *)
Theorem C1_division_by_zero_is_printed_as_a_result (rt : runtime) :
  Tools.basic_calculator rt (PyStr (Notebook.calculator_input "1" "0" "divide"))
  = Return (PyTuple [PyStr "division by zero";
                     PyStr Tools.execution_error_hint])
  /\ Agent.execute_tool rt (Notebook.agent rt)
       (Notebook.decision "basic_calculator"
          (Notebook.calculator_input "1" "0" "divide"))
     = ([Agent.result_line
           "('division by zero', '\n\nError during operation execution.')"],
        Return PyNone).
Proof. split; vm_compute; reflexivity. Qed.

(** The general half of C1 holds: whatever [Exception] a registered tool
    raises, [execute_tool] returns normally after printing the red line
    with the message of the exception. *)
Lemma tool_fault_is_reported (rt : runtime) (self : Agent.instance) d
    (before after : list Tools.tool) (tool : Tools.tool)
    (tool_input : pyval) out e :
  Agent.tools self = before ++ tool :: after ->
  Agent.registered (Tools.__name__ tool) before = false ->
  dict_get "tool_choice" d = Some (PyStr (Tools.__name__ tool)) ->
  dict_get "tool_input" d = Some tool_input ->
  Tools.call tool tool_input = (out, Raise e) ->
  is_Exception e = true ->
  Agent.execute_tool rt self (PyDict d)
  = (out ++ [Agent.execution_error_line (Tools.__name__ tool) (exn_str e)],
     Return PyNone).
Proof.
  intros Htools Hfirst Hchoice Hinput Hcall Hexn.
  rewrite execute_tool_dict, Htools, Hchoice, Hinput.
  rewrite dispatch_first_match by (exact Hfirst || reflexivity).
  apply dispatch_tool_raises; assumption.
Qed.

(** C2. The claim asks that the decision with tool_choice "no tool" and
    tool_input "hello" is answered with "hello". [Agent.execute_tool]
    prints the red line of a tool that was not found instead, and the text
    of the answer is not printed. *)
Theorem C2_no_tool_is_reported_as_not_found (rt : runtime) :
  Agent.execute_tool rt (Notebook.agent rt) (Notebook.decision "no tool" "hello")
  = ([Agent.not_found_line "no tool"], Return PyNone).
Proof. vm_compute; reflexivity. Qed.


(** The function [execute_tool] of the Mistral notebook does what the
    claim says: with no tool of the chosen name it prints tool_input. *)
Lemma mistral_prints_the_direct_answer (rt : runtime)
    (tools : list Tools.tool) d name text :
  dict_get "tool_choice" d = Some (PyStr name) ->
  dict_get "tool_input" d = Some (PyStr text) ->
  Agent.registered name tools = false ->
  Mistral.execute_tool rt (PyDict d) tools
  = ([Colored text Cyan], Return PyNone).
Proof.
  intros Hchoice Hinput Hno.
  unfold Mistral.execute_tool, dict_method_get.
  rewrite Hchoice, Hinput, !bind_lift_Return.
  unfold Agent.registered in Hno.
  induction tools as [|tool rest IH]; [reflexivity|].
  cbn [existsb] in Hno. apply orb_false_iff in Hno as [Hhead Hrest].
  cbn [Mistral.dispatch]. rewrite Hhead. apply IH. exact Hrest.
Qed.




(** ** Splitting text *)

Lemma split1_cases sep s :
  (exists a b, Text.split1 sep s = [a; b]) \/ Text.split1 sep s = [s].
Proof.
  unfold Text.split1. destruct (Text.cut sep s) as [[a b]|]; eauto.
Qed.

Lemma contains_cut sep s :
  Text.contains sep s = true -> exists a b, Text.cut sep s = Some (a, b).
Proof.
  induction s as [|c s IH]; cbn [Text.contains Text.cut]; intros H.
  - rewrite orb_false_r in H. rewrite H. eauto.
  - destruct (Text.startswith sep (c :: s)); [eauto|].
    cbn [orb] in H. destruct (IH H) as (a & b & Hcut). rewrite Hcut. eauto.
Qed.

Lemma cut_contains sep s :
  Text.contains sep s = false -> Text.cut sep s = None.
Proof.
  induction s as [|c s IH]; cbn [Text.contains Text.cut]; intros H.
  - rewrite orb_false_r in H. rewrite H. reflexivity.
  - apply orb_false_iff in H as [H1 H2]. rewrite H1, (IH H2). reflexivity.
Qed.

Lemma split_char_nonempty c s : exists x l, Text.split_char c s = x :: l.
Proof.
  induction s as [|a s IH]; cbn [Text.split_char]; [eauto|].
  destruct (N.eqb a c); [eauto|].
  destruct (Text.split_char c s); eauto.
Qed.

Lemma index_0_split1 sep s : exists x, index (Text.split1 sep s) 0 = Return x.
Proof.
  destruct (split1_cases sep s) as [(a & b & H)|H]; rewrite H; cbn; eauto.
Qed.

Lemma index_1_split1 sep s :
  Text.contains sep s = true ->
  exists x, index (Text.split1 sep s) 1 = Return x.
Proof.
  intros H. destruct (contains_cut sep s H) as (a & b & Hcut).
  unfold Text.split1. rewrite Hcut. cbn. eauto.
Qed.

Lemma index_0_split_char c s :
  exists x, index (Text.split_char c s) 0 = Return x.
Proof.
  destruct (split_char_nonempty c s) as (x & l & H); rewrite H; cbn; eauto.
Qed.

Lemma index_in_range l i :
  i < List.length l -> exists x, index l i = Return x.
Proof.
  intros H. unfold index.
  destruct (nth_error l i) eqn:E; [eauto|].
  apply nth_error_None in E. lia.
Qed.

(** ** [prepare_tools]: claims C7 and C9 *)

(** No line of a docstring makes the loop over the parameter lines
    raise. *)
Lemma parameters_line_returns st line :
  exists st', Agent.parameters_line st line = Return st'.
Proof.
  unfold Agent.parameters_line.
  destruct (Text.contains "Parameters:" line); [eauto|].
  destruct (negb (Agent.param_section_started st)
            || Text.eqb (Text.strip line) []); [eauto|].
  destruct (Text.contains ": " line); [|eauto].
  destruct (Nat.eqb (List.length (Text.split1 ":" line)) 2) eqn:Hlen; [|eauto].
  apply Nat.eqb_eq in Hlen.
  destruct (Text.split1 ":" line) as [|a [|b [|]]]; try discriminate Hlen.
  cbn [index nth_error rbind].
  destruct (index_0_split1 "(" a) as (name0 & Hname). rewrite Hname.
  cbn [rbind].
  destruct (Text.contains "(" a) eqn:Hparen.
  - destruct (index_1_split1 "(" a Hparen) as (after & Hafter).
    rewrite Hafter. cbn [rbind].
    destruct (index_0_split1 ")" after) as (ty & Hty). rewrite Hty.
    cbn [rbind]. eauto.
  - cbn [rbind]. eauto.
Qed.

Lemma parameters_loop_returns lines : forall st,
  exists st', Agent.parameters_loop st lines = Return st'.
Proof.
  induction lines as [|line rest IH]; intros st; cbn [Agent.parameters_loop].
  - eauto.
  - destruct (parameters_line_returns st line) as (st1 & H1). rewrite H1.
    cbn [rbind]. apply IH.
Qed.

(** No docstring makes [describe] raise, and the descriptor carries the
    name of the tool. *)
Lemma describe_returns tool :
  exists info,
    Agent.describe tool = Return info
    /\ Agent.info_name info = Tools.__name__ tool.
Proof.
  unfold Agent.describe.
  set (docstring := match Tools.__doc__ tool with
                    | Some ((_ :: _) as doc) => Text.strip doc
                    | _ => Agent.no_description
                    end).
  destruct (index_0_split1 F[ LF; LF ] docstring) as (part0 & H0).
  rewrite H0. cbn [rbind].
  destruct (index_0_split_char 10 part0) as (desc & Hd).
  rewrite Hd. cbn [rbind].
  assert (Hsection : exists section,
    (if Nat.ltb 1 (List.length (Text.split1 F[ LF; LF ] docstring))
     then index (Text.split1 F[ LF; LF ] docstring) 1
     else Return []) = Return section).
  { destruct (Nat.ltb 1 (List.length (Text.split1 F[ LF; LF ] docstring)))
      eqn:Hlt; [|eauto].
    apply Nat.ltb_lt in Hlt. apply index_in_range. exact Hlt. }
  destruct Hsection as (section & Hs). rewrite Hs. cbn [rbind].
  destruct (Text.contains "Parameters:" section).
  - destruct (parameters_loop_returns (Text.split_char 10 section)
                (Agent.LoopState false desc [])) as (st & Hst).
    rewrite Hst. cbn [rbind]. eauto.
  - cbn [rbind]. eauto.
Qed.

(** [tools_info] gets one descriptor per tool, in the order of the
    tools. *)
Lemma tools_info_of_returns tools :
  exists infos,
    Agent.tools_info_of tools = Return infos
    /\ List.map Agent.info_name infos = List.map Tools.__name__ tools.
Proof.
  induction tools as [|tool rest IH]; cbn [Agent.tools_info_of].
  - exists []. split; reflexivity.
  - destruct (describe_returns tool) as (info & Hinfo & Hname).
    destruct IH as (infos & Hinfos & Hnames).
    rewrite Hinfo. cbn [rbind]. rewrite Hinfos. cbn [rbind].
    exists (info :: infos). split; [reflexivity|].
    cbn [List.map]. rewrite Hname, Hnames. reflexivity.
Qed.

(** The constructor of [Agent] returns, whatever the tools. *)
Lemma init_returns tools config :
  exists self, Agent.__init__ tools config = Return self.
Proof.
  unfold Agent.__init__, Agent.prepare_tools.
  destruct (tools_info_of_returns tools) as (infos & Hinfos & _).
  rewrite Hinfos. cbn [rbind]. eauto.
Qed.

Lemma agent_is_constructed rt :
  Agent.__init__ (Tools.tools rt) Notebook.ollama_config
  = Return (Notebook.agent rt).
Proof.
  unfold Notebook.agent.
  destruct (init_returns (Tools.tools rt) Notebook.ollama_config) as (self & H).
  rewrite H. reflexivity.
Qed.

(** C7, as the code has it. Building the descriptions never fails and
    never reports a duplicate: [prepare_tools] returns a text made of one
    descriptor per tool, in the order of the tools, whether or not two of
    them share a name; and [execute_tool] calls the first tool that has the
    chosen name, whatever tools follow it. *)
Theorem C7_duplicate_names_are_accepted (rt : runtime)
    (tools before after : list Tools.tool) (tool : Tools.tool)
    (tool_input : pyval) :
  (exists infos,
     Agent.tools_info_of tools = Return infos
     /\ List.map Agent.info_name infos = List.map Tools.__name__ tools
     /\ Agent.prepare_tools tools
        = Return (Text.join LF (List.map Agent.info_text infos)))
  /\ (Agent.registered (Tools.__name__ tool) before = false ->
      Agent.dispatch rt (before ++ tool :: after)
        (PyStr (Tools.__name__ tool)) tool_input
      = Agent.dispatch rt [tool] (PyStr (Tools.__name__ tool)) tool_input).
Proof.
  split.
  - destruct (tools_info_of_returns tools) as (infos & Hinfos & Hnames).
    exists infos. repeat split; try assumption.
    unfold Agent.prepare_tools. rewrite Hinfos. reflexivity.
  - intros Hfirst. apply dispatch_first_match; [exact Hfirst|reflexivity].
Qed.

Lemma C7_witness :
  Agent.dispatch Notebook.interpreter
    ([] ++ Notebook.lookup_first :: [Notebook.lookup_second])
    (PyStr "lookup") (PyStr "word")
  = Agent.dispatch Notebook.interpreter [Notebook.lookup_first]
      (PyStr "lookup") (PyStr "word").
Proof.
  apply (proj2 (@C7_duplicate_names_are_accepted Notebook.interpreter
                  [Notebook.lookup_first; Notebook.lookup_second]
                  [] [Notebook.lookup_second] Notebook.lookup_first
                  (PyStr "word"))).
  reflexivity.
Defined.

(** Two tools with the same name are both described, and the second one
    is never called. In the Mistral notebook the dict of the docstrings
    keeps one entry for the name, with the docstring of the second tool. *)
Lemma C7_counterexample :
  Agent.tools_info_of [Notebook.lookup_first; Notebook.lookup_second]
  = Return
      [ Agent.ToolInfo "lookup" "Look a word up in the first dictionary." [];
        Agent.ToolInfo "lookup" "Look a word up in the second dictionary." [] ]
  /\ (exists text,
        Agent.prepare_tools [Notebook.lookup_first; Notebook.lookup_second]
        = Return text)
  /\ Agent.dispatch Notebook.interpreter
       [Notebook.lookup_first; Notebook.lookup_second]
       (PyStr "lookup") (PyStr "word")
     = ([Agent.result_line "first"], Return PyNone)
  /\ Mistral.prepare_tools [Notebook.lookup_first; Notebook.lookup_second]
     = F[ "lookup: "; DQ; "Look a word up in the second dictionary."; DQ ].
Proof.
  split; [vm_compute; reflexivity|].
  split; [eexists; vm_compute; reflexivity|].
  split; vm_compute; reflexivity.
Qed.




(** ** The model client: claims C4, C6 and C8 *)

(** [json.loads] raises [JSONDecodeError], [ValueError] or [TypeError],
    none of which is a [RequestException]. *)
Lemma json_loads_raises_no_RequestException v e :
  json_loads v = Raise e -> is_RequestException e = false.
Proof.
  unfold json_loads, Json.loads.
  destruct v; try (intros H; inversion H; reflexivity).
  destruct (Text.startswith [65279%N] s); [intros H; inversion H; reflexivity|].
  destruct (Json.skip_ws s 0) as [s' p].
  destruct (Json.scan_once _ p s') as [v rest p'|err|].
  - destruct (Json.skip_ws rest p') as [rest' p''].
    destruct rest'; intros H; inversion H; reflexivity.
  - intros H; inversion H; destruct err; reflexivity.
  - intros H; inversion H; reflexivity.
Qed.

Section Think.

Variable rt : runtime.
Variable post : service.
Variable self : Agent.instance.
Variable prompt : pystr.

(** The system text of the request and the decoded body of the reply. *)
Variable system : pystr.
Variable body : pyval.
Hypothesis formatted :
  str_format rt (Agent.system_prompt self) (Agent.tool_descriptions self)
  = Return system.
Hypothesis replied :
  post (Agent.model_endpoint self) (Agent.headers self)
    (Agent.payload self prompt system) = Return body.

(** When the generated text does not parse, [think] raises the exception
    of [json.loads]: the handler is for [RequestException] only. *)
Lemma think_parse_failure text e :
  getitem body "response" = Return text ->
  json_loads text = Raise e ->
  Agent.think rt post self prompt = ([], Raise e).
Proof.
  intros Htext Hloads. unfold Agent.think.
  rewrite formatted, bind_lift_Return, replied, bind_lift_Return.
  rewrite Htext, bind_lift_Return, Hloads.
  unfold try_except, bind, lift.
  rewrite (json_loads_raises_no_RequestException _ Hloads). reflexivity.
Qed.

(** When it parses, [think] prints the decision and returns it as it
    is. *)
Lemma think_parse_success text response shown :
  getitem body "response" = Return text ->
  json_loads text = Return response ->
  str_of rt response = Return shown ->
  Agent.think rt post self prompt
  = ([Plain F[ LF; LF; "Response from model: "; shown ]], Return response).
Proof.
  intros Htext Hloads Hshown. unfold Agent.think.
  rewrite formatted, bind_lift_Return, replied, bind_lift_Return.
  rewrite Htext, bind_lift_Return, Hloads, bind_lift_Return.
  rewrite Hshown, bind_lift_Return. reflexivity.
Qed.

End Think.


(** [work] returns what [execute_tool] leaves: [None], or an exception. *)
Lemma work_after_think rt post self prompt out response :
  Agent.think rt post self prompt = (out, Return response) ->
  Agent.work rt post self prompt
  = (out ++ stdout (Agent.execute_tool rt self response),
     match outcome (Agent.execute_tool rt self response) with
     | Return _ => Return PyNone
     | Raise e => Raise e
     end).
Proof.
  intros Hthink. unfold Agent.work. rewrite Hthink.
  unfold bind, ret, stdout, outcome.
  destruct (Agent.execute_tool rt self response) as [out' [v|e]]; cbn.
  - rewrite app_nil_r. reflexivity.
  - reflexivity.
Qed.

Lemma work_think_raises rt post self prompt out e :
  Agent.think rt post self prompt = (out, Raise e) ->
  Agent.work rt post self prompt = (out, Raise e).
Proof. intros Hthink. unfold Agent.work. rewrite Hthink. reflexivity. Qed.

(** C4, as the code has it. [work] hands no outcome to its caller: when
    it returns, it returns [None]. The outcome of the turn is on standard
    output only: after the line of [think], the lines that [execute_tool]
    prints for the decision. *)
Theorem C4_work_returns_None (rt : runtime) (post : service)
    (self : Agent.instance) (prompt : pystr) (out : list printed)
    (response : pyval) :
  (forall v, outcome (Agent.work rt post self prompt) = Return v -> v = PyNone)
  /\ (Agent.think rt post self prompt = (out, Return response) ->
      stdout (Agent.work rt post self prompt)
      = out ++ stdout (Agent.execute_tool rt self response)).
Proof.
  split.
  - intros v. destruct (Agent.think rt post self prompt) as [o [r|e]] eqn:Hthink.
    + rewrite (work_after_think _ _ _ _ Hthink).
      generalize (Agent.execute_tool rt self r) as run. intros run.
      unfold outcome at 1. cbn [snd].
      destruct (outcome run); intros H; inversion H; reflexivity.
    + rewrite (work_think_raises _ _ _ _ Hthink). intros H; inversion H.
  - intros Hthink. rewrite (work_after_think _ _ _ _ Hthink). reflexivity.
Qed.

Lemma C4_witness :
  stdout (Agent.work Notebook.interpreter
            (Notebook.replying Notebook.recorded_reply_2)
            (Notebook.agent Notebook.interpreter)
            "Reverse this string: I want to be reversed!")
  = [Plain F[ LF; LF; "Response from model: ";
              "{'tool_choice': 'reverse_string', 'tool_input': 'I want to be reversed!'}" ]]
    ++ stdout (Agent.execute_tool Notebook.interpreter
                 (Notebook.agent Notebook.interpreter)
                 (Notebook.decision "reverse_string" "I want to be reversed!")).
Proof.
  apply (proj2 (@C4_work_returns_None Notebook.interpreter
                  (Notebook.replying Notebook.recorded_reply_2)
                  (Notebook.agent Notebook.interpreter)
                  "Reverse this string: I want to be reversed!"
                  [Plain F[ LF; LF; "Response from model: ";
                            "{'tool_choice': 'reverse_string', 'tool_input': 'I want to be reversed!'}" ]]
                  (Notebook.decision "reverse_string" "I want to be reversed!"))).
  vm_compute. reflexivity.
Defined.

(** A turn that ends in a result and a turn that ends in an error return
    the same value, [None]; what tells them apart is printed. *)
Lemma C4_counterexample :
  Agent.work Notebook.interpreter (Notebook.replying Notebook.recorded_reply_2)
    (Notebook.agent Notebook.interpreter)
    "Reverse this string: I want to be reversed!"
  = ([Plain F[ LF; LF; "Response from model: ";
               "{'tool_choice': 'reverse_string', 'tool_input': 'I want to be reversed!'}" ];
      Agent.result_line
        F[ "The reversed string is: !desrever eb ot tnaw I"; LF; LF;
           "Executed using the reverse_string function." ]],
     Return PyNone)
  /\ Agent.work Notebook.interpreter
       (Notebook.replying (Notebook.decision_text "nonexistent_tool" "x"))
       (Notebook.agent Notebook.interpreter) "x"
     = ([Plain F[ LF; LF; "Response from model: ";
                  "{'tool_choice': 'nonexistent_tool', 'tool_input': 'x'}" ];
         Agent.not_found_line "nonexistent_tool"],
        Return PyNone).
Proof. split; vm_compute; reflexivity. Qed.

(** The first run of the notebook, "What is 5+5?", prints what the
    notebook recorded. *)
Example recorded_run_1 :
  Agent.work Notebook.interpreter (Notebook.replying Notebook.recorded_reply_1)
    (Notebook.agent Notebook.interpreter) "What is 5+5?"
  = ([Plain F[ LF; LF; "Response from model: ";
               "{'tool_choice': 'basic_calculator', 'tool_input': '";
               Notebook.recorded_calculator_input; "'}" ];
      Agent.result_line (Tools.answer "10")],
     Return PyNone).
Proof. vm_compute; reflexivity. Qed.

(** C6, as the code has it. When the generated text is not JSON, [think]
    raises the exception of [json.loads] and [work] lets it through to its
    caller; nothing is printed and no error outcome is built. *)
Theorem C6_unparseable_reply_is_raised (rt : runtime) (post : service)
    (self : Agent.instance) (prompt system : pystr) (body text : pyval)
    (e : exn) :
  str_format rt (Agent.system_prompt self) (Agent.tool_descriptions self)
  = Return system ->
  post (Agent.model_endpoint self) (Agent.headers self)
    (Agent.payload self prompt system) = Return body ->
  getitem body "response" = Return text ->
  json_loads text = Raise e ->
  Agent.think rt post self prompt = ([], Raise e)
  /\ Agent.work rt post self prompt = ([], Raise e).
Proof.
  intros Hformat Hpost Htext Hloads.
  assert (Hthink : Agent.think rt post self prompt = ([], Raise e))
    by (eapply think_parse_failure; eassumption).
  split; [exact Hthink|]. apply work_think_raises. exact Hthink.
Qed.

Lemma C6_witness :
  Agent.think Notebook.interpreter (Notebook.replying "{tool_choice: none}")
    (Notebook.agent Notebook.interpreter) "What is 5+5?"
  = ([], Raise (Exn JSONDecodeError
                  "Expecting property name enclosed in double quotes: line 1 column 2 (char 1)"))
  /\ Agent.work Notebook.interpreter (Notebook.replying "{tool_choice: none}")
       (Notebook.agent Notebook.interpreter) "What is 5+5?"
     = ([], Raise (Exn JSONDecodeError
                     "Expecting property name enclosed in double quotes: line 1 column 2 (char 1)")).
Proof.
  eapply (@C6_unparseable_reply_is_raised Notebook.interpreter
            (Notebook.replying "{tool_choice: none}")
            (Notebook.agent Notebook.interpreter) "What is 5+5?").
  - vm_compute. reflexivity.
  - reflexivity.
  - vm_compute. reflexivity.
  - vm_compute. reflexivity.
Defined.

(** A reply in prose makes [work] raise [JSONDecodeError]. *)
Lemma C6_counterexample :
  Agent.work Notebook.interpreter (Notebook.replying Notebook.prose_reply)
    (Notebook.agent Notebook.interpreter) "What is 5+5?"
  = ([], Raise (Exn JSONDecodeError "Expecting value: line 1 column 1 (char 0)")).
Proof. vm_compute; reflexivity. Qed.

(** ** Normalisation of the input of [basic_calculator] *)

Lemma lstrip_by_app_all f w s :
  forallb f w = true ->
  Text.lstrip_by f (w ++ s) = Text.lstrip_by f s.
Proof.
  induction w as [|c w IH]; cbn [forallb app Text.lstrip_by]; intros H.
  - reflexivity.
  - apply andb_true_iff in H as [Hc Hw]. rewrite Hc. apply IH. exact Hw.
Qed.

Lemma lstrip_by_all f w : forallb f w = true -> Text.lstrip_by f w = [].
Proof.
  intros H. rewrite <- (app_nil_r w). rewrite lstrip_by_app_all by exact H.
  reflexivity.
Qed.

Lemma lstrip_by_app f x w :
  Text.lstrip_by f (x ++ w)
  = match Text.lstrip_by f x with
    | [] => Text.lstrip_by f w
    | y => y ++ w
    end.
Proof.
  induction x as [|c x IH]; cbn [app Text.lstrip_by].
  - reflexivity.
  - destruct (f c); [exact IH|reflexivity].
Qed.

Lemma forallb_rev {A} (f : A -> bool) l :
  forallb f l = true -> forallb f (rev l) = true.
Proof.
  rewrite !forallb_forall. intros H x Hin. apply H. apply in_rev. exact Hin.
Qed.

Lemma rstrip_by_app_all f y w :
  forallb f w = true ->
  Text.rstrip_by f (y ++ w) = Text.rstrip_by f y.
Proof.
  intros H. unfold Text.rstrip_by. rewrite rev_app_distr.
  rewrite lstrip_by_app_all by (apply forallb_rev; exact H). reflexivity.
Qed.

(** Characters at both ends that [f] accepts do not change the result of
    stripping by [f]. *)
Lemma strip_by_wrapped f w1 x w2 :
  forallb f w1 = true -> forallb f w2 = true ->
  Text.strip_by f (w1 ++ x ++ w2) = Text.strip_by f x.
Proof.
  intros H1 H2. unfold Text.strip_by.
  rewrite lstrip_by_app_all by exact H1.
  rewrite lstrip_by_app.
  destruct (Text.lstrip_by f x) as [|c y] eqn:E.
  - rewrite (lstrip_by_all f w2 H2). reflexivity.
  - apply rstrip_by_app_all. exact H2.
Qed.

Lemma replace_quotes_of_space w :
  forallb Text.isspace w = true -> Text.replace_char 39 34 w = w.
Proof.
  unfold Text.replace_char.
  induction w as [|c w IH]; cbn [forallb List.map]; intros H.
  - reflexivity.
  - apply andb_true_iff in H as [Hc Hw]. rewrite (IH Hw).
    destruct (N.eqb_spec c 39) as [->|_]; [discriminate Hc|reflexivity].
Qed.

(** Turning the double quotes of a text into single quotes is undone by
    the first step of the normalisation. *)
Lemma replace_quotes_of_single_quoted s :
  Text.replace_char 39 34 (Text.replace_char 34 39 s)
  = Text.replace_char 39 34 s.
Proof.
  unfold Text.replace_char. rewrite map_map. apply map_ext. intros c.
  destruct (N.eqb_spec c 34) as [->|H34]; [reflexivity|].
  reflexivity.
Qed.

Lemma clean_tolerates (s w1 w2 : pystr) :
  forallb Text.isspace w1 = true -> forallb Text.isspace w2 = true ->
  Tools.clean (w1 ++ Text.replace_char 34 39 s ++ w2) = Tools.clean s.
Proof.
  intros H1 H2. unfold Tools.clean, Text.replace_char.
  rewrite !map_app. fold (Text.replace_char 39 34 w1).
  fold (Text.replace_char 39 34 w2). fold (Text.replace_char 34 39 s).
  fold (Text.replace_char 39 34 (Text.replace_char 34 39 s)).
  fold (Text.replace_char 39 34 s).
  rewrite (replace_quotes_of_space w1 H1), (replace_quotes_of_space w2 H2).
  rewrite replace_quotes_of_single_quoted.
  unfold Text.strip. rewrite strip_by_wrapped by assumption. reflexivity.
Qed.

(** C8, as the code has it. The model client does not normalise: [think]
    gives the generated text to [json.loads] as it is and raises when the
    text does not parse. The normalisation is a step of
    [basic_calculator], on its own input: an input written with single
    quotes instead of double quotes, or wrapped in white space, is cleaned
    to the same text and gives the same result. *)
Theorem C8_normalisation_is_in_basic_calculator (rt : runtime)
    (self : Agent.instance) (prompt system text s w1 w2 : pystr) (e : exn) :
  (str_format rt (Agent.system_prompt self) (Agent.tool_descriptions self)
   = Return system ->
   Json.loads text = Raise e ->
   Agent.think rt (Notebook.replying text) self prompt = ([], Raise e))
  /\ (forallb Text.isspace w1 = true -> forallb Text.isspace w2 = true ->
      Tools.clean (w1 ++ Text.replace_char 34 39 s ++ w2) = Tools.clean s
      /\ Tools.basic_calculator rt
           (PyStr (w1 ++ Text.replace_char 34 39 s ++ w2))
         = Tools.basic_calculator rt (PyStr s)).
Proof.
  split.
  - intros Hformat Hloads.
    eapply think_parse_failure with (text := PyStr text).
    + exact Hformat.
    + reflexivity.
    + reflexivity.
    + exact Hloads.
  - intros H1 H2. split; [apply clean_tolerates; assumption|].
    unfold Tools.basic_calculator, Tools.parse_input.
    rewrite clean_tolerates by assumption. reflexivity.
Qed.

Lemma C8_witness :
  Tools.clean
    ((Text.lit "  ")
       ++ Text.replace_char 34 39 (Notebook.calculator_input "5" "5" "add")
       ++ LF)
  = Tools.clean (Notebook.calculator_input "5" "5" "add")
  /\ Tools.basic_calculator Notebook.interpreter
       (PyStr ((Text.lit "  ")
                 ++ Text.replace_char 34 39
                      (Notebook.calculator_input "5" "5" "add")
                 ++ LF))
     = Tools.basic_calculator Notebook.interpreter
         (PyStr (Notebook.calculator_input "5" "5" "add")).
Proof.
  apply (proj2 (@C8_normalisation_is_in_basic_calculator Notebook.interpreter
                  (Notebook.agent Notebook.interpreter) "hi" [] []
                  (Notebook.calculator_input "5" "5" "add") "  " LF
                  (Exn JSONDecodeError [])));
    vm_compute; reflexivity.
Defined.

(** The decision written with single quotes makes [think] raise, although
    the text would parse after the normalisation of [basic_calculator]. *)
Lemma C8_counterexample :
  Agent.think Notebook.interpreter
    (Notebook.replying Notebook.single_quoted_reply)
    (Notebook.agent Notebook.interpreter) "hi"
  = ([], Raise (Exn JSONDecodeError
                  "Expecting property name enclosed in double quotes: line 1 column 2 (char 1)"))
  /\ Json.loads (Tools.clean Notebook.single_quoted_reply)
     = Return (Notebook.decision "no tool" "hello").
Proof. split; vm_compute; reflexivity. Qed.

(** ** The results of [basic_calculator]: claim C10 *)

Lemma parse_input_dict s d num1 num2 operation :
  Json.loads (Tools.clean s) = Return (PyDict d) ->
  dict_get "num1" d = Some num1 ->
  dict_get "num2" d = Some num2 ->
  dict_get "operation" d = Some operation ->
  Tools.parse_input (PyStr s) = Return (num1, num2, operation).
Proof.
  intros Hloads H1 H2 H3. unfold Tools.parse_input, getitem.
  rewrite Hloads. cbn [rbind]. rewrite H1. cbn [rbind].
  rewrite H2. cbn [rbind]. rewrite H3. reflexivity.
Qed.


(** Division, floor division and remainder by zero raise inside the inner
    [try], whatever the dividend. *)
Lemma operate_by_zero rt a :
  Tools.operate rt "divide" (PyInt a) (PyInt 0) = Fails "division by zero"
  /\ Tools.operate rt "floor_divide" (PyInt a) (PyInt 0)
     = Fails "integer division or modulo by zero"
  /\ Tools.operate rt "modulus" (PyInt a) (PyInt 0)
     = Fails "integer modulo by zero".
Proof. repeat split; reflexivity. Qed.




(* ===================================================================== *)
(** * More properties of the code *)
(* ===================================================================== *)

(** ** What [basic_calculator] returns and raises *)

(** The first [try] block fails with one of four classes: the two it
    names in its handler, [ValueError] for an integer literal over the
    digit limit and [TypeError] for a JSON text that is not an object. *)
Lemma parse_input_str_raises s e :
  Tools.parse_input (PyStr s) = Raise e ->
  exn_cls e = JSONDecodeError \/ exn_cls e = KeyError
  \/ exn_cls e = ValueError \/ exn_cls e = TypeError.
Proof.
  unfold Tools.parse_input.
  destruct (loads_decodes_or_rejects (Tools.clean s))
    as [(v & Hv)|(e' & He' & Hcls)]; [rewrite Hv|rewrite He'].
  - cbn [rbind]. unfold getitem.
    destruct v; cbn [rbind];
      try (intros H; inversion H; subst; cbn; tauto).
    repeat match goal with
    | |- context [dict_get ?k items] =>
        destruct (dict_get k items); cbn [rbind];
        [|intros H; inversion H; subst; cbn; tauto]
    end.
    discriminate.
  - cbn [rbind]. intros H; inversion H; subst. tauto.
Qed.

(** X1. Whatever object it is given, when [basic_calculator] returns, it
    returns a string or a pair of two strings. *)
Theorem basic_calculator_returns_text_or_pair (rt : runtime) (v r : pyval) :
  Tools.basic_calculator rt v = Return r ->
  (exists text, r = PyStr text)
  \/ (exists message hint, r = PyTuple [PyStr message; PyStr hint]).
Proof.
  unfold Tools.basic_calculator.
  destruct (Tools.parse_input v) as [[[num1 num2] operation]|e].
  - destruct (unhashable operation); [discriminate|].
    destruct operation; try (intros H; inversion H; solve [eauto]).
    destruct (existsb (Text.eqb s) Tools.operations);
      [|intros H; inversion H; eauto].
    destruct (Tools.operate rt s num1 num2); intros H; inversion H; eauto.
  - destruct (is_JSONDecodeError_or_KeyError e); intros H; inversion H; eauto.
Qed.

Lemma basic_calculator_returns_text_or_pair_witness :
  (exists text, PyStr Tools.unsupported_operation = PyStr text)
  \/ (exists message hint,
        PyStr Tools.unsupported_operation
        = PyTuple [PyStr message; PyStr hint]).
Proof.
  apply (@basic_calculator_returns_text_or_pair Notebook.interpreter
           (PyStr (Notebook.calculator_input "2" "3" "sqrt"))
           (PyStr Tools.unsupported_operation)).
  vm_compute. reflexivity.
Defined.

(** X2. A JSON text that is not an object (a number, a string, a list,
    null) is not reported as invalid input: the lookup of "num1" raises a
    [TypeError], which the handler for [JSONDecodeError] and [KeyError]
    does not catch, and [basic_calculator] raises it. *)
Theorem basic_calculator_raises_on_non_object (rt : runtime) (s : pystr)
    (v : pyval) :
  Json.loads (Tools.clean s) = Return v ->
  Text.eqb (type_name v) "dict" = false ->
  exists message,
    getitem v "num1" = Raise (Exn TypeError message)
    /\ Tools.basic_calculator rt (PyStr s) = Raise (Exn TypeError message).
Proof.
  intros Hloads Hdict.
  unfold Tools.basic_calculator, Tools.parse_input. rewrite Hloads.
  destruct v; try discriminate Hdict; eexists; split; reflexivity.
Qed.

Lemma basic_calculator_raises_on_non_object_witness :
  exists message,
    getitem (PyList [PyInt 1; PyInt 2]) "num1" = Raise (Exn TypeError message)
    /\ Tools.basic_calculator Notebook.interpreter (PyStr "[1, 2]")
       = Raise (Exn TypeError message).
Proof.
  apply (@basic_calculator_raises_on_non_object Notebook.interpreter
           "[1, 2]" (PyList [PyInt 1; PyInt 2]));
    vm_compute; reflexivity.
Defined.

(** ** The agent of the notebook at work *)

Lemma agent_tools rt : Agent.tools (Notebook.agent rt) = Tools.tools rt.
Proof.
  unfold Notebook.agent.
  destruct (init_returns (Tools.tools rt) Notebook.ollama_config) as (self & H).
  rewrite H. unfold Agent.__init__ in H.
  destruct (Agent.prepare_tools (Tools.tools rt)); [|discriminate H].
  cbn [rbind] in H. injection H as <-. reflexivity.
Qed.


(** What the agent of the notebook does with a decision for one of its
    tools, in terms of the loop of [execute_tool] on that tool alone. *)
Lemma agent_runs rt d before tool after :
  Tools.tools rt = before ++ tool :: after ->
  Agent.registered (Tools.__name__ tool) before = false ->
  dict_get "tool_choice" d = Some (PyStr (Tools.__name__ tool)) ->
  Agent.execute_tool rt (Notebook.agent rt) (PyDict d)
  = Agent.dispatch rt [tool] (PyStr (Tools.__name__ tool))
      (match dict_get "tool_input" d with Some v => v | None => PyNone end).
Proof.
  intros Htools Hbefore Hchoice.
  rewrite execute_tool_dict, Hchoice, agent_tools, Htools.
  apply dispatch_first_match; [exact Hbefore|reflexivity].
Qed.



Lemma reversed_raises_TypeError v e :
  Tools.reversed v = Raise e -> exn_cls e = TypeError.
Proof. destruct v; intros H; inversion H; reflexivity. Qed.





(** What [basic_calculator] returns, [str] converts; what it raises, an
    [except Exception] catches. *)
Lemma basic_calculator_result_is_shown rt v r :
  Tools.basic_calculator rt v = Return r ->
  exists shown, str_of rt r = Return shown.
Proof.
  unfold Tools.basic_calculator.
  destruct (Tools.parse_input v) as [[[num1 num2] operation]|e].
  - destruct (unhashable operation); [discriminate|].
    destruct operation;
      try (intros H; inversion H; eexists; reflexivity).
    destruct (existsb (Text.eqb s) Tools.operations);
      [|intros H; inversion H; eexists; reflexivity].
    destruct (Tools.operate rt s num1 num2); intros H; inversion H;
      eexists; reflexivity.
  - destruct (is_JSONDecodeError_or_KeyError e); intros H; inversion H;
      eexists; reflexivity.
Qed.

Lemma reverse_string_raises rt v e :
  Tools.reverse_string rt v = Raise e -> is_Exception e = true.
Proof.
  unfold Tools.reverse_string, Tools.reverse_string_with.
  destruct (Tools.reversed v) as [r|e'] eqn:Hrev; cbn [rbind].
  - unfold str_of. destruct (py_str rt r); cbn [rbind]; intros H;
      inversion H; reflexivity.
  - intros H; inversion H; subst.
    unfold is_Exception. rewrite (reversed_raises_TypeError _ Hrev).
    reflexivity.
Qed.

Lemma reverse_string_returns_text rt v r :
  Tools.reverse_string rt v = Return r -> exists text, r = PyStr text.
Proof.
  unfold Tools.reverse_string, Tools.reverse_string_with.
  destruct (Tools.reversed v) as [x|e']; cbn [rbind]; [|discriminate].
  destruct (str_of rt x); cbn [rbind]; intros H; inversion H; eauto.
Qed.

Lemma basic_calculator_raises rt v e :
  Tools.basic_calculator rt v = Raise e -> is_Exception e = true.
Proof.
  unfold Tools.basic_calculator.
  destruct v; try (intros H; inversion H; reflexivity).
  destruct (Tools.parse_input (PyStr s)) as [[[num1 num2] operation]|e']
    eqn:Hparse.
  - destruct (unhashable operation); [intros H; inversion H; reflexivity|].
    destruct operation; try discriminate.
    destruct (existsb (Text.eqb s0) Tools.operations); [|discriminate].
    destruct (Tools.operate rt s0 num1 num2); discriminate.
  - destruct (is_JSONDecodeError_or_KeyError e') eqn:Hcls; [discriminate|].
    intros H; inversion H; subst. unfold is_Exception.
    destruct (parse_input_str_raises _ Hparse) as [Hc|[Hc|[Hc|Hc]]];
      rewrite Hc; reflexivity.
Qed.

(** The loop on one tool that neither prints nor lets anything but an
    [Exception] out, and whose results [str] converts: one line, in cyan
    or in red, and a normal return. *)
Lemma dispatch_one_line rt name doc (f : pyval -> result pyval) tool_input :
  (forall r, f tool_input = Return r -> exists shown, str_of rt r = Return shown) ->
  (forall e, f tool_input = Raise e -> is_Exception e = true) ->
  exists text c,
    Agent.dispatch rt [Tools.Tool name doc (fun x => lift (f x))]
      (PyStr name) tool_input
    = ([Colored text c], Return PyNone).
Proof.
  intros Hret Hraise.
  destruct (f tool_input) as [r|e] eqn:Hcall.
  - destruct (Hret r eq_refl) as (shown & Hshown).
    exists shown, Cyan.
    cbn [Agent.dispatch].
    rewrite (@name_is_true (Tools.Tool name doc (fun x => lift (f x))) name eq_refl).
    cbn [Tools.call]. rewrite Hcall, bind_lift_Return, Hshown, bind_lift_Return.
    reflexivity.
  - exists F[ "Error executing tool "; name; ": "; exn_str e ], Red.
    apply (@dispatch_tool_raises rt
             (Tools.Tool name doc (fun x => lift (f x))) [] tool_input [] e).
    + cbn [Tools.call]. rewrite Hcall. reflexivity.
    + exact (Hraise e eq_refl).
Qed.

(** X6. Whatever tool the model names and whatever input it gives, the
    agent of the notebook prints exactly one coloured line and returns:
    no exception of [basic_calculator] or [reverse_string] leaves
    [execute_tool]. *)
Theorem agent_prints_one_line (rt : runtime) (d : list (pystr * pyval))
    (name : pystr) :
  dict_get "tool_choice" d = Some (PyStr name) ->
  exists text c,
    Agent.execute_tool rt (Notebook.agent rt) (PyDict d)
    = ([Colored text c], Return PyNone).
Proof.
  intros Hchoice.
  destruct (Text.eqb "basic_calculator" name) eqn:Hcalc.
  - apply eqb_eq in Hcalc. subst name.
    rewrite (@agent_runs rt d []
               (Tools.Tool "basic_calculator" (Some Tools.basic_calculator_doc)
                  (fun x => lift (Tools.basic_calculator rt x)))
               _ eq_refl eq_refl Hchoice).
    apply dispatch_one_line.
    + intros r. apply basic_calculator_result_is_shown.
    + intros e. apply basic_calculator_raises.
  - destruct (Text.eqb "reverse_string" name) eqn:Hrev.
    + apply eqb_eq in Hrev. subst name.
      rewrite (@agent_runs rt d
                 [Tools.Tool "basic_calculator" (Some Tools.basic_calculator_doc)
                    (fun x => lift (Tools.basic_calculator rt x))]
                 (Tools.Tool "reverse_string" (Some Tools.reverse_string_doc)
                    (fun x => lift (Tools.reverse_string rt x)))
                 [] eq_refl eq_refl Hchoice).
      apply dispatch_one_line.
      * intros r Hr. destruct (reverse_string_returns_text rt _ Hr) as (t & ->).
        eexists; reflexivity.
      * intros e. apply reverse_string_raises.
    + exists F[ "Tool "; name; " not found or unsupported operation." ], Red.
      rewrite execute_tool_dict, Hchoice, agent_tools.
      apply dispatch_unregistered.
      unfold Agent.registered, Tools.tools. cbn [existsb Agent.name_is Tools.__name__].
      rewrite Hcalc, Hrev. reflexivity.
Qed.

Lemma agent_prints_one_line_witness :
  exists text c,
    Agent.execute_tool Notebook.interpreter
      (Notebook.agent Notebook.interpreter)
      (PyDict [(Text.lit "tool_choice", PyStr "basic_calculator");
               (Text.lit "tool_input", PyList [PyInt 1; PyInt 2])])
    = ([Colored text c], Return PyNone).
Proof.
  apply (@agent_prints_one_line Notebook.interpreter _ "basic_calculator").
  reflexivity.
Defined.



(** ** A turn of the agent when the service misbehaves *)



(** X9. When the body of the reply has no key "response" (the service
    answered with an error object), the [KeyError] of the lookup leaves
    [think] and [work]: nothing is printed. *)
Theorem work_reply_without_response (rt : runtime) (post : service)
    (self : Agent.instance) (prompt system : pystr)
    (body : list (pystr * pyval)) :
  str_format rt (Agent.system_prompt self) (Agent.tool_descriptions self)
  = Return system ->
  post (Agent.model_endpoint self) (Agent.headers self)
    (Agent.payload self prompt system) = Return (PyDict body) ->
  dict_get "response" body = None ->
  Agent.work rt post self prompt = ([], Raise (key_error "response")).
Proof.
  intros Hformat Hpost Hkey.
  apply work_think_raises. unfold Agent.think.
  rewrite Hformat, bind_lift_Return, Hpost, bind_lift_Return.
  unfold getitem. rewrite Hkey. reflexivity.
Qed.

Lemma work_reply_without_response_witness :
  Agent.work Notebook.interpreter
    (fun _ _ _ => Return (PyDict [(Text.lit "error", PyStr "model not found")]))
    (Notebook.agent_with Notebook.interpreter "no tools") "What is 5+5?"
  = ([], Raise (key_error "response")).
Proof.
  eapply work_reply_without_response;
    [vm_compute; reflexivity|reflexivity|reflexivity].
Defined.

(** X10. When the generated text is JSON but not an object (a list, a
    string, a number, null), [think] prints and returns it, and
    [execute_tool] raises the [AttributeError] of [response.get], which
    leaves [work]. *)
Theorem work_reply_that_is_no_object (rt : runtime) (post : service)
    (self : Agent.instance) (prompt system : pystr) (body text response : pyval)
    (shown : pystr) :
  str_format rt (Agent.system_prompt self) (Agent.tool_descriptions self)
  = Return system ->
  post (Agent.model_endpoint self) (Agent.headers self)
    (Agent.payload self prompt system) = Return body ->
  getitem body "response" = Return text ->
  json_loads text = Return response ->
  Text.eqb (type_name response) "dict" = false ->
  str_of rt response = Return shown ->
  Agent.work rt post self prompt
  = ([Plain F[ LF; LF; "Response from model: "; shown ]],
     Raise (no_attribute response "get")).
Proof.
  intros Hformat Hpost Htext Hloads Hdict Hshown.
  rewrite (work_after_think _ _ _ _
             (@think_parse_success rt post self prompt system body Hformat
                Hpost text response shown Htext Hloads Hshown)).
  unfold Agent.execute_tool.
  destruct response; try reflexivity. discriminate Hdict.
Qed.

Lemma work_reply_that_is_no_object_witness :
  Agent.work Notebook.interpreter (Notebook.replying "[1, 2]")
    (Notebook.agent_with Notebook.interpreter "no tools") "What is 5+5?"
  = ([Plain F[ LF; LF; "Response from model: "; "[1, 2]" ]],
     Raise (no_attribute (PyList [PyInt 1; PyInt 2]) "get")).
Proof.
  eapply work_reply_that_is_no_object;
    [vm_compute; reflexivity|reflexivity|reflexivity
    |vm_compute; reflexivity|reflexivity|reflexivity].
Defined.

(** ** Integers written in decimal and read back by [json.loads] *)

(** The digits [str] writes for a number, read from left to right with
    [acc] as the value so far. *)
Lemma read_digits_acc d acc :
  fold_left (fun a c => (a * 10 + Z.of_N (c - 48))%Z) (Text.of_uint d)
    (Zpos acc)
  = Zpos (Pos.of_uint_acc d acc).
Proof.
  revert acc.
  induction d; intros acc; cbn [Text.of_uint fold_left Pos.of_uint_acc];
    [reflexivity|..];
    match goal with
    | |- fold_left _ _ ?z = _ =>
        match goal with
        | |- _ = Zpos (Pos.of_uint_acc _ ?p) =>
            replace z with (Zpos p) by lia
        end
    end; apply IHd.
Qed.

Lemma digits_value_of_uint d :
  Json.digits_value (Text.of_uint d) = Z.of_N (N.of_uint d).
Proof.
  unfold Json.digits_value, N.of_uint.
  induction d; cbn [Text.of_uint fold_left Pos.of_uint];
    [reflexivity|exact IHd|..];
    match goal with
    | |- fold_left _ _ ?z = Z.of_N (Npos (Pos.of_uint_acc _ ?p)) =>
        change z with (Zpos p); cbn [Z.of_N]; apply read_digits_acc
    end.
Qed.

(** Reading the digits of [str(n)] gives [n] back. *)
Lemma digits_value_of_N n : Json.digits_value (Text.of_N n) = Z.of_N n.
Proof.
  unfold Text.of_N. rewrite digits_value_of_uint.
  rewrite DecimalN.Unsigned.of_to. reflexivity.
Qed.

(** [str(n)] is the digit 0, or starts with a digit from 1 to 9. *)
Lemma of_N_head n :
  Text.of_N n = [48%N]
  \/ exists c d, Text.of_N n = c :: Text.of_uint d
                 /\ ((49 <=? c) && (c <=? 57))%N = true.
Proof.
  unfold Text.of_N.
  pose proof (DecimalN.Unsigned.to_of (N.to_uint n)) as Hnorm.
  rewrite DecimalN.Unsigned.of_to in Hnorm.
  destruct (N.to_uint n) as [|d|d|d|d|d|d|d|d|d|d];
    try (right; eexists; exists d; split; reflexivity).
  - symmetry in Hnorm. destruct (DecimalFacts.unorm_nonnil _ Hnorm).
  - left. rewrite DecimalFacts.unorm_D0 in Hnorm.
    destruct (Decimal.nzhead d) eqn:Hhead;
      try (rewrite DecimalFacts.unorm_nzhead in Hnorm
             by (rewrite Hhead; discriminate);
           symmetry in Hnorm;
           destruct (DecimalFacts.nzhead_nonzero _ _ Hnorm)).
    apply DecimalFacts.unorm_0 in Hhead. rewrite Hhead in Hnorm.
    inversion Hnorm. reflexivity.
Qed.

Lemma span_digits_of_uint d c r :
  Json.is_digit c = false ->
  Json.span_digits (Text.of_uint d ++ c :: r) = (Text.of_uint d, c :: r).
Proof.
  intros Hc.
  induction d; cbn [Text.of_uint app Json.span_digits];
    [rewrite Hc; reflexivity|..];
    change (Json.is_digit _) with true; cbn iota; rewrite IHd; reflexivity.
Qed.

(** A number written by [str] and followed by a comma is read back by the
    scanner, which stops at the comma. *)
Lemma match_number_of_Z pos a r :
  List.length (Text.of_N (Z.abs_N a)) <= int_max_str_digits ->
  exists pos',
    Json.match_number pos (Text.of_Z a ++ 44%N :: r)
    = Json.Scanned (PyInt a) (44%N :: r) pos'.
Proof.
  intros Hlen.
  assert (Hint : forall p,
    List.length (Text.of_N (Npos p)) <= int_max_str_digits ->
    Json.int_part (Text.of_N (Npos p) ++ 44%N :: r)
    = Some (Text.of_N (Npos p), 44%N :: r)
    /\ exists c t, Text.of_N (Npos p) = c :: t /\ (c =? 45)%N = false).
  { intros p _.
    destruct (of_N_head (Npos p)) as [H0|(c & d & Hd & Hc)].
    - rewrite H0. split; [reflexivity|]. eexists; eexists; split; reflexivity.
    - rewrite Hd. apply andb_true_iff in Hc as [Hlo Hhi].
      apply N.leb_le in Hlo, Hhi. split.
      + cbn [app Json.int_part].
        replace (c =? 48)%N with false by (symmetry; apply N.eqb_neq; lia).
        replace (Json.is_digit c) with true
          by (symmetry; unfold Json.is_digit; apply andb_true_iff;
              split; apply N.leb_le; lia).
        rewrite span_digits_of_uint by reflexivity. reflexivity.
      + exists c, (Text.of_uint d). split; [reflexivity|].
        apply N.eqb_neq; lia. }
  assert (Hlimit : forall ds : pystr, List.length ds <= int_max_str_digits ->
            Nat.ltb int_max_str_digits (List.length ds) = false).
  { intros ds H. apply Nat.ltb_ge. exact H. }
  destruct a as [|p|p]; cbn [Z.abs_N Z.abs N.of_nat] in Hlen.
  - eexists. reflexivity.
  - destruct (Hint p Hlen) as (Hpart & c & t & Hct & Hminus).
    unfold Json.match_number. cbn [Text.of_Z].
    rewrite Hct in *. cbn [app]. rewrite Hminus.
    change (c :: t ++ 44%N :: r) with ((c :: t) ++ 44%N :: r).
    rewrite Hpart. cbn [Json.frac_part Json.exp_part N.eqb Pos.eqb orb].
    rewrite (Hlimit _ Hlen). rewrite <- Hct, digits_value_of_N.
    eexists. reflexivity.
  - destruct (Hint p Hlen) as (Hpart & _).
    unfold Json.match_number. cbn [Text.of_Z app].
    change (Text.ch "-" =? 45)%N with true. cbn iota.
    rewrite Hpart. cbn [Json.frac_part Json.exp_part N.eqb Pos.eqb orb].
    rewrite (Hlimit _ Hlen). rewrite digits_value_of_N.
    eexists. reflexivity.
Qed.

Lemma digit_cases c :
  Json.is_digit c = true ->
  (c = 48 \/ c = 49 \/ c = 50 \/ c = 51 \/ c = 52 \/ c = 53 \/ c = 54
   \/ c = 55 \/ c = 56 \/ c = 57)%N.
Proof.
  unfold Json.is_digit. intros H. apply andb_true_iff in H as [Hlo Hhi].
  apply N.leb_le in Hlo, Hhi. lia.
Qed.

(** A text that starts as a number does (a digit, or a minus sign and a
    digit) is scanned as a number; it is not white space. *)
Lemma scan_once_number f pos c t :
  Json.is_digit c = true
  \/ (c = 45%N /\ exists c' t', t = c' :: t' /\ Json.is_digit c' = true) ->
  Json.scan_once (S f) pos (c :: t) = Json.match_number pos (c :: t)
  /\ Json.is_ws c = false.
Proof.
  intros [Hc|(-> & c' & t' & -> & Hc)]; apply digit_cases in Hc;
    repeat (destruct Hc as [->|Hc]); try subst; split; reflexivity.
Qed.

Lemma of_Z_head a :
  exists c t,
    Text.of_Z a = c :: t
    /\ (Json.is_digit c = true
        \/ (c = 45%N /\ exists c' t', t = c' :: t' /\ Json.is_digit c' = true)).
Proof.
  assert (Hpos : forall p, exists c t,
            Text.of_N (Npos p) = c :: t /\ Json.is_digit c = true).
  { intros p. destruct (of_N_head (Npos p)) as [H0|(c & d & Hd & Hc)].
    - rewrite H0. eexists; eexists; split; reflexivity.
    - rewrite Hd. exists c, (Text.of_uint d). split; [reflexivity|].
      apply andb_true_iff in Hc as [Hlo Hhi]. apply N.leb_le in Hlo, Hhi.
      unfold Json.is_digit. apply andb_true_iff; split; apply N.leb_le; lia. }
  destruct a as [|p|p]; cbn [Text.of_Z].
  - eexists; eexists; split; [reflexivity|left; reflexivity].
  - destruct (Hpos p) as (c & t & Hct & Hc). rewrite Hct.
    exists c, t. split; [reflexivity|left; exact Hc].
  - destruct (Hpos p) as (c & t & Hct & Hc). rewrite Hct.
    eexists; eexists; split; [reflexivity|right].
    split; [reflexivity|]. exists c, t. split; [reflexivity|exact Hc].
Qed.

(** The value of a pair of a JSON object when it is an integer written by
    [str]: the space before it is skipped and the number is scanned. *)
Lemma scan_value_of_Z f a r :
  List.length (Text.of_N (Z.abs_N a)) <= int_max_str_digits ->
  (forall pos,
     Json.skip_ws (32%N :: Text.of_Z a ++ 44%N :: r) pos
     = (Text.of_Z a ++ 44%N :: r, S pos))
  /\ (forall pos, exists pos',
        Json.scan_once (S f) pos (Text.of_Z a ++ 44%N :: r)
        = Json.Scanned (PyInt a) (44%N :: r) pos').
Proof.
  intros Hlen. destruct (of_Z_head a) as (c & t & Hct & Hhead).
  assert (Hnumber :
    Json.is_digit c = true
    \/ (c = 45%N /\ exists c' t', t ++ 44%N :: r = c' :: t'
                                  /\ Json.is_digit c' = true)).
  { destruct Hhead as [Hc|(-> & c' & t' & -> & Hc)]; [left; exact Hc|].
    right. split; [reflexivity|].
    eexists; eexists; split; [reflexivity|exact Hc]. }
  split; intros pos.
  - destruct (@scan_once_number f pos c (t ++ 44%N :: r) Hnumber) as [_ Hws].
    rewrite Hct. cbn [app Json.skip_ws]. change (Json.is_ws 32) with true.
    cbn iota. rewrite Hws. reflexivity.
  - destruct (match_number_of_Z pos a r Hlen) as (pos' & Hnum).
    destruct (@scan_once_number f pos c (t ++ 44%N :: r) Hnumber) as [Hscan _].
    exists pos'. rewrite Hct in *. cbn [app] in *. rewrite Hscan. exact Hnum.
Qed.

(** A string without double quotes, backslashes and control characters is
    read up to its closing quote, character by character. *)
Lemma scanstring_plain start k :
  forallb (fun c => (32 <=? c) && negb (c =? 34) && negb (c =? 92))%N k = true ->
  forall pos r acc, exists pos',
    Json.scanstring start pos (k ++ 34%N :: r) acc
    = Json.Scanned (rev acc ++ k) r pos'.
Proof.
  induction k as [|c k IH]; cbn [forallb]; intros Hk pos r acc.
  - exists (S pos). cbn [app Json.scanstring N.eqb Pos.eqb].
    rewrite app_nil_r. reflexivity.
  - apply andb_true_iff in Hk as [Hc Hk].
    apply andb_true_iff in Hc as [Hc H92].
    apply andb_true_iff in Hc as [H32 H34].
    apply negb_true_iff in H34, H92. apply N.leb_le in H32.
    destruct (IH Hk (S pos) r (c :: acc)) as (pos' & Hrest).
    exists pos'. cbn [app Json.scanstring]. rewrite H34, H92.
    replace (c <=? 31)%N with false by (symmetry; apply N.leb_gt; lia).
    rewrite Hrest. cbn [rev]. rewrite <- app_assoc. reflexivity.
Qed.

(** One round of the loop of [JSONObject] on a pair whose value is an
    integer written by [str], followed by a comma, a space and the next
    pair. *)
Lemma object_loop_int_pair f pos key a r acc :
  forallb (fun c => (32 <=? c) && negb (c =? 34) && negb (c =? 92))%N key = true ->
  List.length (Text.of_N (Z.abs_N a)) <= int_max_str_digits ->
  exists pos',
    Json.object_loop (S (S f)) pos
      (34%N :: key ++ 34%N :: 58%N :: 32%N :: Text.of_Z a
         ++ 44%N :: 32%N :: 34%N :: r) acc
    = Json.object_loop (S f) pos' (34%N :: r) (dict_set key (PyInt a) acc).
Proof.
  intros Hkey Hlen.
  destruct (scanstring_plain pos key Hkey (S pos)
              (58%N :: 32%N :: Text.of_Z a ++ 44%N :: 32%N :: 34%N :: r) [])
    as (p1 & Hstring).
  destruct (@scan_value_of_Z f a (32%N :: 34%N :: r) Hlen) as [Hskip Hvalue].
  destruct (Hvalue (S (S p1))) as (p5 & Hscan).
  exists (S (S p5)).
  cbn [Json.object_loop N.eqb Pos.eqb negb]. rewrite Hstring.
  cbn [rev app]. change (Json.skip_ws (58%N :: ?x) p1) with (58%N :: x, p1).
  cbn [N.eqb Pos.eqb negb]. rewrite Hskip, Hscan.
  cbn [Json.skip_ws Json.is_ws N.eqb Pos.eqb orb]. reflexivity.
Qed.

(** The last round: a pair whose value is a string, then the closing
    brace. *)
Lemma object_loop_last_pair f pos key text acc :
  forallb (fun c => (32 <=? c) && negb (c =? 34) && negb (c =? 92))%N key = true ->
  forallb (fun c => (32 <=? c) && negb (c =? 34) && negb (c =? 92))%N text = true ->
  exists pos',
    Json.object_loop (S (S f)) pos
      (34%N :: key ++ 34%N :: 58%N :: 32%N :: 34%N :: text ++ [34%N; 125%N])
      acc
    = Json.Scanned (PyDict (dict_set key (PyStr text) acc)) [] pos'.
Proof.
  intros Hkey Htext.
  destruct (scanstring_plain pos key Hkey (S pos)
              (58%N :: 32%N :: 34%N :: text ++ [34%N; 125%N]) [])
    as (p1 & Hstring).
  destruct (scanstring_plain (S (S p1)) text Htext (S (S (S p1))) [125%N] [])
    as (p5 & Hvalue).
  exists (S p5).
  cbn [Json.object_loop N.eqb Pos.eqb negb]. rewrite Hstring.
  cbn [rev app Json.skip_ws Json.is_ws N.eqb Pos.eqb orb negb Json.scan_once].
  rewrite Hvalue.
  cbn [rev app Json.skip_ws Json.is_ws N.eqb Pos.eqb orb]. reflexivity.
Qed.

(** The text of [calculator_input], character by character. *)
Lemma calculator_input_text num1 num2 operation :
  Notebook.calculator_input num1 num2 operation
  = 123%N :: 34%N :: Text.lit "num1" ++ 34%N :: 58%N :: 32%N :: num1
      ++ 44%N :: 32%N :: 34%N :: Text.lit "num2" ++ 34%N :: 58%N :: 32%N
      :: num2 ++ 44%N :: 32%N :: 34%N :: Text.lit "operation" ++ 34%N
      :: 58%N :: 32%N :: 34%N :: operation ++ [34%N; 125%N].
Proof.
  unfold Notebook.calculator_input, Text.fstr.
  cbn [List.concat]. rewrite app_nil_r.
  repeat (rewrite <- ?app_assoc; cbn [app Text.DQ]; try reflexivity).
Qed.

(** [json.loads] reads the text of [calculator_input] back: an object
    with the two integers and the name of the operation. *)
Lemma loads_calculator_input a b op :
  List.length (Text.of_N (Z.abs_N a)) <= int_max_str_digits ->
  List.length (Text.of_N (Z.abs_N b)) <= int_max_str_digits ->
  forallb (fun c => (32 <=? c) && negb (c =? 34) && negb (c =? 92))%N op = true ->
  Json.loads (Notebook.calculator_input (Text.of_Z a) (Text.of_Z b) op)
  = Return (PyDict [(Text.lit "num1", PyInt a); (Text.lit "num2", PyInt b);
                    (Text.lit "operation", PyStr op)]).
Proof.
  intros Ha Hb Hop. unfold Json.loads.
  rewrite calculator_input_text.
  set (doc := 123%N :: _).
  assert (Hfuel : exists f, Json.fuel_for (List.length doc) = S (S (S (S (S f))))).
  { exists (2 * List.length (tl (tl doc))). subst doc. cbn [tl List.length].
    unfold Json.fuel_for. lia. }
  destruct Hfuel as (f & ->). subst doc.
  cbn [Text.startswith N.eqb Pos.eqb andb Json.skip_ws Json.is_ws orb].
  cbn [Json.scan_once N.eqb Pos.eqb Json.skip_ws Json.is_ws orb].
  destruct (@object_loop_int_pair (S (S f)) 1 (Text.lit "num1") a
              (Text.lit "num2" ++ 34%N :: 58%N :: 32%N :: Text.of_Z b
                 ++ 44%N :: 32%N :: 34%N :: Text.lit "operation" ++ 34%N
                 :: 58%N :: 32%N :: 34%N :: op ++ [34%N; 125%N]) []
              eq_refl Ha) as (p1 & H1).
  rewrite H1.
  destruct (@object_loop_int_pair (S f) p1 (Text.lit "num2") b
              (Text.lit "operation" ++ 34%N
                 :: 58%N :: 32%N :: 34%N :: op ++ [34%N; 125%N])
              (dict_set (Text.lit "num1") (PyInt a) [])
              eq_refl Hb) as (p2 & H2).
  rewrite H2.
  destruct (@object_loop_last_pair f p2 (Text.lit "operation") op
              (dict_set (Text.lit "num2") (PyInt b)
                 (dict_set (Text.lit "num1") (PyInt a) []))
              eq_refl Hop) as (p3 & H3).
  rewrite H3. reflexivity.
Qed.

(** Stripping leaves a text alone whose first and last characters are not
    stripped. *)
Lemma strip_by_kept f c body c' :
  f c = false -> f c' = false ->
  Text.strip_by f (c :: body ++ [c']) = c :: body ++ [c'].
Proof.
  intros Hc Hc'. unfold Text.strip_by, Text.rstrip_by.
  cbn [Text.lstrip_by]. rewrite Hc.
  change (c :: body ++ [c']) with ((c :: body) ++ [c']).
  rewrite rev_unit. cbn [Text.lstrip_by]. rewrite Hc'.
  rewrite <- rev_unit. apply rev_involutive.
Qed.

Lemma replace_char_absent a b s :
  forallb (fun c => negb (c =? a)%N) s = true -> Text.replace_char a b s = s.
Proof.
  unfold Text.replace_char.
  induction s as [|c s IH]; cbn [forallb List.map]; intros H.
  - reflexivity.
  - apply andb_true_iff in H as [Hc Hs]. apply negb_true_iff in Hc.
    rewrite Hc, (IH Hs). reflexivity.
Qed.

Lemma of_Z_no_quote a :
  forallb (fun c => negb (c =? 39)%N) (Text.of_Z a) = true.
Proof.
  assert (H : forall d, forallb (fun c => negb (c =? 39)%N) (Text.of_uint d)
                        = true).
  { induction d; cbn [Text.of_uint forallb]; [reflexivity|..]; exact IHd. }
  destruct a; cbn [Text.of_Z]; [reflexivity|apply H|].
  cbn [forallb]. apply H.
Qed.

(** The cleaning steps of [basic_calculator] leave the text of
    [calculator_input] as it is. *)
Lemma clean_calculator_input a b op :
  forallb (fun c => (32 <=? c) && negb (c =? 34) && negb (c =? 39)
                    && negb (c =? 92))%N op = true ->
  Tools.clean (Notebook.calculator_input (Text.of_Z a) (Text.of_Z b) op)
  = Notebook.calculator_input (Text.of_Z a) (Text.of_Z b) op.
Proof.
  intros Hop.
  assert (Hquote : forallb (fun c => negb (c =? 39)%N) op = true).
  { apply forallb_forall. intros c Hin.
    apply (proj1 (forallb_forall _ _) Hop) in Hin.
    apply andb_true_iff in Hin as [Hin _].
    apply andb_true_iff in Hin as [_ Hin]. exact Hin. }
  unfold Tools.clean.
  rewrite replace_char_absent.
  - assert (Hends : exists body,
              Notebook.calculator_input (Text.of_Z a) (Text.of_Z b) op
              = 123%N :: body ++ [125%N]).
    { eexists. rewrite calculator_input_text.
      f_equal. rewrite !app_comm_cons.
      change [34%N; 125%N] with ([34%N] ++ [125%N]).
      rewrite !app_assoc. reflexivity. }
    destruct Hends as (body & ->).
    unfold Text.strip, Text.strip_char.
    rewrite !strip_by_kept; reflexivity.
  - rewrite calculator_input_text.
    repeat (rewrite forallb_app || cbn [forallb]).
    rewrite !of_Z_no_quote, Hquote. reflexivity.
Qed.

(** [basic_calculator] parses the text of [calculator_input] back into the
    two integers and the name of the operation. *)
Lemma parse_calculator_input a b op :
  List.length (Text.of_N (Z.abs_N a)) <= int_max_str_digits ->
  List.length (Text.of_N (Z.abs_N b)) <= int_max_str_digits ->
  forallb (fun c => (32 <=? c) && negb (c =? 34) && negb (c =? 39)
                    && negb (c =? 92))%N op = true ->
  Tools.parse_input
    (PyStr (Notebook.calculator_input (Text.of_Z a) (Text.of_Z b) op))
  = Return (PyInt a, PyInt b, PyStr op).
Proof.
  intros Ha Hb Hop.
  apply parse_input_dict
    with (d := [(Text.lit "num1", PyInt a); (Text.lit "num2", PyInt b);
                (Text.lit "operation", PyStr op)]);
    [|reflexivity..].
  rewrite (@clean_calculator_input a b op Hop).
  apply loads_calculator_input; try assumption.
  apply forallb_forall. intros c Hin.
  apply (proj1 (forallb_forall _ _) Hop) in Hin.
  apply andb_true_iff in Hin as [Hin H92].
  apply andb_true_iff in Hin as [Hin _].
  rewrite Hin, H92. reflexivity.
Qed.

(** ** [basic_calculator] on integers *)

(** X11. On the JSON text of two integers and an operation name (a name
    without quotes, backslashes and control characters), [basic_calculator]
    returns what the table of operations gives for the two integers: the
    answer text, the pair of the error and its hint when the operation
    raises, and the "Unsupported operation" text for a name outside the
    table. It does not raise. *)
Theorem basic_calculator_on_integers (rt : runtime) (a b : Z) (op : pystr) :
  List.length (Text.of_N (Z.abs_N a)) <= int_max_str_digits ->
  List.length (Text.of_N (Z.abs_N b)) <= int_max_str_digits ->
  forallb (fun c => (32 <=? c) && negb (c =? 34) && negb (c =? 39)
                    && negb (c =? 92))%N op = true ->
  Tools.basic_calculator rt
    (PyStr (Notebook.calculator_input (Text.of_Z a) (Text.of_Z b) op))
  = if existsb (Text.eqb op) Tools.operations then
      match Tools.int_operation rt op a b with
      | Text result => Return (PyStr (Tools.answer result))
      | Fails message =>
          Return (PyTuple [PyStr message; PyStr Tools.execution_error_hint])
      end
    else Return (PyStr Tools.unsupported_operation).
Proof.
  intros Ha Hb Hop. unfold Tools.basic_calculator.
  rewrite (@parse_calculator_input a b op Ha Hb Hop). reflexivity.
Qed.

Lemma basic_calculator_on_integers_witness :
  Tools.basic_calculator Notebook.interpreter
    (PyStr (Notebook.calculator_input (Text.of_Z (-7)) (Text.of_Z 2)
              "floor_divide"))
  = if existsb (Text.eqb "floor_divide") Tools.operations then
      match Tools.int_operation Notebook.interpreter "floor_divide" (-7) 2 with
      | Text result => Return (PyStr (Tools.answer result))
      | Fails message =>
          Return (PyTuple [PyStr message; PyStr Tools.execution_error_hint])
      end
    else Return (PyStr Tools.unsupported_operation).
Proof.
  apply basic_calculator_on_integers;
    [vm_compute; lia|vm_compute; lia|reflexivity].
Defined.

(** X12. Dividing by zero does not raise, whatever the dividend:
    [basic_calculator] returns the message of the [ZeroDivisionError]
    paired with the hint of a failed operation, for divide, floor_divide
    and modulus. *)
Theorem basic_calculator_zero_divisor (rt : runtime) (a : Z) :
  List.length (Text.of_N (Z.abs_N a)) <= int_max_str_digits ->
  Tools.basic_calculator rt
    (PyStr (Notebook.calculator_input (Text.of_Z a) "0" "divide"))
  = Return (PyTuple [PyStr "division by zero";
                     PyStr Tools.execution_error_hint])
  /\ Tools.basic_calculator rt
       (PyStr (Notebook.calculator_input (Text.of_Z a) "0" "floor_divide"))
     = Return (PyTuple [PyStr "integer division or modulo by zero";
                        PyStr Tools.execution_error_hint])
  /\ Tools.basic_calculator rt
       (PyStr (Notebook.calculator_input (Text.of_Z a) "0" "modulus"))
     = Return (PyTuple [PyStr "integer modulo by zero";
                        PyStr Tools.execution_error_hint]).
Proof.
  intros Ha.
  assert (H0 : List.length (Text.of_N (Z.abs_N 0)) <= int_max_str_digits)
    by (vm_compute; lia).
  unfold Tools.basic_calculator.
  change (Text.lit "0") with (Text.of_Z 0).
  repeat split.
  - rewrite (@parse_calculator_input a 0 (Text.lit "divide") Ha H0 eq_refl). reflexivity.
  - rewrite (@parse_calculator_input a 0 (Text.lit "floor_divide") Ha H0 eq_refl).
    reflexivity.
  - rewrite (@parse_calculator_input a 0 (Text.lit "modulus") Ha H0 eq_refl).
    reflexivity.
Qed.

Lemma basic_calculator_zero_divisor_witness :
  Tools.basic_calculator Notebook.interpreter
    (PyStr (Notebook.calculator_input (Text.of_Z 1) "0" "divide"))
  = Return (PyTuple [PyStr "division by zero";
                     PyStr Tools.execution_error_hint]).
Proof.
  apply (proj1 (@basic_calculator_zero_divisor Notebook.interpreter 1
                  ltac:(vm_compute; lia))).
Defined.



(** ** The functions of the Mistral notebook *)

(** X14. The stand-alone [execute_tool] has no handler around the call of
    the tool: an exception of the chosen tool leaves [execute_tool], after
    what the tool printed, and no line is added. *)
Theorem mistral_execute_tool_propagates (rt : runtime)
    (before after : list Tools.tool) (tool : Tools.tool)
    (d : list (pystr * pyval)) (tool_input : pyval) (out : list printed)
    (e : exn) :
  Agent.registered (Tools.__name__ tool) before = false ->
  dict_get "tool_choice" d = Some (PyStr (Tools.__name__ tool)) ->
  match dict_get "tool_input" d with Some v => v | None => PyNone end
  = tool_input ->
  Tools.call tool tool_input = (out, Raise e) ->
  Mistral.execute_tool rt (PyDict d) (before ++ tool :: after)
  = (out, Raise e).
Proof.
  intros Hbefore Hchoice Hinput Hcall.
  unfold Mistral.execute_tool, dict_method_get. rewrite Hchoice.
  rewrite bind_lift_Return.
  assert (Hget : lift (match dict_get "tool_input" d with
                       | Some x => Return x
                       | None => Return PyNone
                       end) = lift (Return tool_input)).
  { rewrite <- Hinput. destruct (dict_get "tool_input" d); reflexivity. }
  rewrite Hget, bind_lift_Return.
  unfold Agent.registered in Hbefore.
  induction before as [|b before IH].
  - cbn [app Mistral.dispatch].
    rewrite (name_is_true tool eq_refl), Hcall. reflexivity.
  - cbn [existsb] in Hbefore.
    apply orb_false_iff in Hbefore as [Hhead Hrest].
    cbn [app Mistral.dispatch]. rewrite Hhead. apply IH. exact Hrest.
Qed.

Lemma mistral_execute_tool_propagates_witness :
  Mistral.execute_tool Notebook.interpreter
    (PyDict [(Text.lit "tool_choice", PyStr "reverse_string");
             (Text.lit "tool_input", PyInt 5)])
    ([Tools.Tool "basic_calculator" (Some Mistral.basic_calculator_doc)
        (fun x => lift (Tools.basic_calculator Notebook.interpreter x))]
     ++ Tools.Tool "reverse_string" (Some Mistral.reverse_string_doc)
          (fun x => lift (Mistral.reverse_string Notebook.interpreter x))
     :: [])
  = ([], Raise (Exn TypeError "'int' object is not subscriptable")).
Proof.
  apply (@mistral_execute_tool_propagates Notebook.interpreter
           [Tools.Tool "basic_calculator" (Some Mistral.basic_calculator_doc)
              (fun x => lift (Tools.basic_calculator Notebook.interpreter x))]
           []
           (Tools.Tool "reverse_string" (Some Mistral.reverse_string_doc)
              (fun x => lift (Mistral.reverse_string Notebook.interpreter x)))
           _ (PyInt 5));
    reflexivity.
Defined.

Lemma dict_get_set_same {V} k (v : V) d : dict_get k (dict_set k v d) = Some v.
Proof.
  induction d as [|[k' v'] d IH]; cbn [dict_set dict_get].
  - rewrite eqb_refl. reflexivity.
  - destruct (Text.eqb k k') eqn:E; cbn [dict_get].
    + rewrite eqb_refl. reflexivity.
    + rewrite E. exact IH.
Qed.

Lemma dict_get_set_other {V} k k' (v : V) d :
  Text.eqb k' k = false -> dict_get k (dict_set k' v d) = dict_get k d.
Proof.
  intros Hk.
  assert (Hk' : Text.eqb k k' = false).
  { apply eqb_neq. intros ->. rewrite eqb_refl in Hk. discriminate. }
  induction d as [|[k0 v0] d IH]; cbn [dict_set dict_get].
  - rewrite Hk'. reflexivity.
  - destruct (Text.eqb k' k0) eqn:E; cbn [dict_get].
    + apply eqb_eq in E. subst k0. rewrite Hk'. reflexivity.
    + destruct (Text.eqb k k0); [reflexivity|exact IH].
Qed.

(** Assigning to a key keeps the keys of a dict distinct. *)
Lemma dict_set_keys {V} k (v : V) d :
  List.map fst (dict_set k v d)
  = if existsb (Text.eqb k) (List.map fst d) then List.map fst d
    else List.map fst d ++ [k].
Proof.
  induction d as [|[k' v'] d IH]; cbn [dict_set List.map fst existsb app].
  - reflexivity.
  - destruct (Text.eqb k k') eqn:E; cbn [List.map fst orb].
    + apply eqb_eq in E. subst k'. reflexivity.
    + rewrite IH. destruct (existsb (Text.eqb k) (List.map fst d)); reflexivity.
Qed.

Lemma dict_set_NoDup {V} k (v : V) d :
  NoDup (List.map fst d) -> NoDup (List.map fst (dict_set k v d)).
Proof.
  intros Hd. rewrite dict_set_keys.
  destruct (existsb (Text.eqb k) (List.map fst d)) eqn:E; [exact Hd|].
  apply NoDup_app; [exact Hd|repeat constructor; intros []|].
  intros x Hin [<-|[]].
  assert (Hex : existsb (Text.eqb k) (List.map fst d) = true).
  { apply existsb_exists. exists k. split; [exact Hin|apply eqb_refl]. }
  rewrite Hex in E. discriminate.
Qed.

(** The dict comprehension of [prepare_tools], from any dict on. *)
Lemma tools_dict_from tools :
  forall d : list (pystr * option pystr),
    NoDup (List.map fst d) ->
    NoDup (List.map fst
             (fold_left (fun d tool =>
                           dict_set (Tools.__name__ tool) (Tools.__doc__ tool) d)
                        tools d))
    /\ forall name,
         Agent.registered name tools = false ->
         dict_get name
           (fold_left (fun d tool =>
                         dict_set (Tools.__name__ tool) (Tools.__doc__ tool) d)
                      tools d)
         = dict_get name d.
Proof.
  unfold Agent.registered.
  induction tools as [|tool rest IH]; intros d Hd; cbn [fold_left].
  - split; [exact Hd|reflexivity].
  - destruct (IH (dict_set (Tools.__name__ tool) (Tools.__doc__ tool) d)
                (dict_set_NoDup _ _ _ Hd)) as [Hnodup Hget].
    split; [exact Hnodup|].
    intros name Hno. cbn [existsb Agent.name_is] in Hno.
    apply orb_false_iff in Hno as [Hhead Hrest].
    rewrite (Hget name Hrest). apply dict_get_set_other. exact Hhead.
Qed.

(** X15. The dict that the stand-alone [prepare_tools] builds has every
    name once, and under a name the docstring of the last tool of the list
    with that name: an earlier tool of the same name is dropped from the
    description without notice. *)
Theorem mistral_last_docstring_wins (before after : list Tools.tool)
    (tool : Tools.tool) :
  Agent.registered (Tools.__name__ tool) after = false ->
  NoDup (List.map fst (Mistral.tools_dict (before ++ tool :: after)))
  /\ dict_get (Tools.__name__ tool)
       (Mistral.tools_dict (before ++ tool :: after))
     = Some (Tools.__doc__ tool).
Proof.
  intros Hafter. unfold Mistral.tools_dict. split.
  - apply tools_dict_from. constructor.
  - rewrite fold_left_app. cbn [fold_left].
    rewrite (proj2 (tools_dict_from after _
                      (dict_set_NoDup _ _ _ (proj1 (tools_dict_from before []
                                                      (NoDup_nil _)))))
               _ Hafter).
    apply dict_get_set_same.
Qed.

Lemma mistral_last_docstring_wins_witness :
  NoDup (List.map fst
           (Mistral.tools_dict ([Notebook.lookup_first]
                                ++ Notebook.lookup_second :: [])))
  /\ dict_get (Tools.__name__ Notebook.lookup_second)
       (Mistral.tools_dict ([Notebook.lookup_first]
                            ++ Notebook.lookup_second :: []))
     = Some (Tools.__doc__ Notebook.lookup_second).
Proof.
  apply (@mistral_last_docstring_wins [Notebook.lookup_first] []
           Notebook.lookup_second).
  reflexivity.
Defined.

(** X16. When the request of [generate_response] fails with a
    [RequestException], it prints the error and returns a dict with the
    key "error" only; [execute_tool] on that dict finds no tool and prints
    its absent tool_input, the text "None", in cyan. *)
Theorem mistral_turn_when_unreachable (rt : runtime) (post : service)
    (template descriptions prompt system : pystr)
    (config : Agent.model_config) (tools : list Tools.tool) (e : exn) :
  str_format rt template descriptions = Return system ->
  (forall payload,
     post (Agent.config_model_endpoint config) (Agent.config_headers config)
       payload = Raise e) ->
  is_RequestException e = true ->
  Mistral.generate_response rt post template descriptions prompt config
  = ([Plain F[ "Error in invoking model! "; exn_str e ]],
     Return (PyDict [(Text.lit "error", PyStr (exn_str e))]))
  /\ Mistral.execute_tool rt (PyDict [(Text.lit "error", PyStr (exn_str e))])
       tools
     = ([Colored "None" Cyan], Return PyNone).
Proof.
  intros Hformat Hpost Hreq. split.
  - unfold Mistral.generate_response.
    rewrite Hformat, bind_lift_Return, Hpost.
    unfold try_except, bind, lift. rewrite Hreq. reflexivity.
  - unfold Mistral.execute_tool, dict_method_get. cbn [dict_get].
    change (Text.eqb "tool_choice" "error") with false.
    change (Text.eqb "tool_input" "error") with false.
    cbv iota. rewrite !bind_lift_Return.
    induction tools as [|tool rest IH]; [reflexivity|exact IH].
Qed.

Lemma mistral_turn_when_unreachable_witness :
  Mistral.generate_response Notebook.interpreter
    (Notebook.unreachable "Connection refused")
    "{tool_descriptions}" "no tools" "What is 5+5?" Notebook.ollama_config
  = ([Plain F[ "Error in invoking model! ";
               exn_str (Exn RequestException "Connection refused") ]],
     Return (PyDict [(Text.lit "error",
                      PyStr (exn_str (Exn RequestException
                                        "Connection refused")))]))
  /\ Mistral.execute_tool Notebook.interpreter
       (PyDict [(Text.lit "error",
                 PyStr (exn_str (Exn RequestException "Connection refused")))])
       (Mistral.tools Notebook.interpreter)
     = ([Colored "None" Cyan], Return PyNone).
Proof.
  eapply mistral_turn_when_unreachable;
    [vm_compute; reflexivity|reflexivity|reflexivity].
Defined.

(** ** The descriptors of [prepare_tools] *)

Lemma contains_colon line :
  Text.contains ": " line = true -> Text.contains ":" line = true.
Proof.
  induction line as [|c line IH]; cbn [Text.contains]; intros H.
  - discriminate H.
  - apply orb_true_iff in H as [H|H].
    + cbn [Text.startswith Text.lit List.map list_ascii_of_string] in H |- *.
      apply andb_true_iff in H as [H _].
      apply orb_true_iff. left.
      cbn [Text.startswith Text.lit List.map list_ascii_of_string].
      rewrite H. reflexivity.
    + rewrite (IH H). apply orb_true_r.
Qed.

(** X17. A parameter line that is parsed (a line with ": " after the line
    "Parameters:") does not only add the parameter to [param_dict]: it
    also assigns the text after its first colon, unstripped, to
    [description], the variable that holds the description of the tool. *)
Theorem parameter_line_replaces_description (st : Agent.loop_state)
    (line : pystr) :
  Agent.param_section_started st = true ->
  Text.contains "Parameters:" line = false ->
  Text.eqb (Text.strip line) [] = false ->
  Text.contains ": " line = true ->
  exists name_type text param_name param_type,
    Text.cut ":" line = Some (name_type, text)
    /\ Agent.parameters_line st line
       = Return (Agent.LoopState true text
                   (dict_set param_name
                      (Agent.Param param_type (Text.strip text) true)
                      (Agent.param_dict st))).
Proof.
  intros Hstarted Hheader Hblank Hcolon.
  destruct (contains_cut ":" line (contains_colon line Hcolon))
    as (name_type & text & Hcut).
  exists name_type, text.
  unfold Agent.parameters_line.
  rewrite Hheader, Hstarted, Hblank, Hcolon. cbn [negb orb].
  unfold Text.split1 at 1 2 3. rewrite Hcut.
  cbn [List.length Nat.eqb index nth_error rbind].
  destruct (index_0_split1 "(" name_type) as (name0 & Hname). rewrite Hname.
  cbn [rbind].
  destruct (Text.contains "(" name_type) eqn:Hparen.
  - destruct (index_1_split1 "(" name_type Hparen) as (after & Hafter).
    rewrite Hafter. cbn [rbind].
    destruct (index_0_split1 ")" after) as (ty & Hty). rewrite Hty.
    cbn [rbind]. eexists; eexists; split; reflexivity.
  - cbn [rbind]. eexists; eexists; split; reflexivity.
Qed.

Lemma parameter_line_replaces_description_witness :
  exists name_type text param_name param_type,
    Text.cut ":" "    - input_string (str): The string to be reversed."
    = Some (name_type, text)
    /\ Agent.parameters_line
         (Agent.LoopState true "Reverse the given string." [])
         "    - input_string (str): The string to be reversed."
       = Return (Agent.LoopState true text
                   (dict_set param_name
                      (Agent.Param param_type (Text.strip text) true)
                      (Agent.param_dict
                         (Agent.LoopState true "Reverse the given string."
                            [])))).
Proof.
  apply (@parameter_line_replaces_description
           (Agent.LoopState true "Reverse the given string." [])
           "    - input_string (str): The string to be reversed.");
    reflexivity.
Defined.

Lemma dict_set_Forall {V} (Q : V -> Prop) k v (d : list (pystr * V)) :
  Forall (fun kv => Q (snd kv)) d -> Q v ->
  Forall (fun kv => Q (snd kv)) (dict_set k v d).
Proof.
  intros Hd Hv.
  induction d as [|[k' v'] d IH]; cbn [dict_set].
  - constructor; [exact Hv|constructor].
  - inversion Hd; subst.
    destruct (Text.eqb k k'); constructor; auto.
Qed.

(** What the loop over the parameter lines keeps true of [param_dict]. *)
Lemma parameters_line_keeps st line st' :
  Agent.parameters_line st line = Return st' ->
  NoDup (List.map fst (Agent.param_dict st))
  /\ Forall (fun kv => Agent.required (snd kv) = true) (Agent.param_dict st) ->
  NoDup (List.map fst (Agent.param_dict st'))
  /\ Forall (fun kv => Agent.required (snd kv) = true) (Agent.param_dict st').
Proof.
  unfold Agent.parameters_line. intros Hline [Hnodup Hreq].
  destruct (Text.contains "Parameters:" line);
    [inversion Hline; subst; split; assumption|].
  destruct (negb (Agent.param_section_started st)
            || Text.eqb (Text.strip line) []);
    [inversion Hline; subst; split; assumption|].
  destruct (Text.contains ": " line);
    [|inversion Hline; subst; split; assumption].
  destruct (Nat.eqb (List.length (Text.split1 ":" line)) 2);
    [|inversion Hline; subst; split; assumption].
  destruct (index (Text.split1 ":" line) 0) as [a|]; [|discriminate Hline].
  cbn [rbind] in Hline.
  destruct (index (Text.split1 ":" line) 1) as [b|]; [|discriminate Hline].
  cbn [rbind] in Hline.
  destruct (index (Text.split1 "(" a) 0) as [name0|]; [|discriminate Hline].
  cbn [rbind] in Hline.
  destruct (if Text.contains "(" a
            then rbind (index (Text.split1 "(" a) 1)
                   (fun after => index (Text.split1 ")" after) 0)
            else Return (Text.lit "str")) as [ty|]; [|discriminate Hline].
  cbn [rbind] in Hline. inversion Hline; subst. cbn [Agent.param_dict].
  split; [apply dict_set_NoDup; exact Hnodup|].
  apply (dict_set_Forall (fun p => Agent.required p = true));
    [exact Hreq|reflexivity].
Qed.

Lemma parameters_loop_keeps lines : forall st st',
  Agent.parameters_loop st lines = Return st' ->
  NoDup (List.map fst (Agent.param_dict st))
  /\ Forall (fun kv => Agent.required (snd kv) = true) (Agent.param_dict st) ->
  NoDup (List.map fst (Agent.param_dict st'))
  /\ Forall (fun kv => Agent.required (snd kv) = true) (Agent.param_dict st').
Proof.
  induction lines as [|line rest IH]; intros st st';
    cbn [Agent.parameters_loop].
  - intros H; inversion H; subst. tauto.
  - destruct (Agent.parameters_line st line) as [st1|] eqn:H1;
      [|discriminate].
    cbn [rbind]. intros Hrest Hst.
    apply (IH st1 st' Hrest). apply (parameters_line_keeps _ _ H1 Hst).
Qed.

(** X18. In every descriptor the names of the parameters are distinct (a
    parameter line that repeats a name replaces the earlier entry) and
    every parameter is marked as required. *)
Theorem descriptor_parameters (tool : Tools.tool) (info : Agent.tool_info) :
  Agent.describe tool = Return info ->
  NoDup (List.map fst (Agent.info_parameters info))
  /\ Forall (fun kv => Agent.required (snd kv) = true)
       (Agent.info_parameters info).
Proof.
  unfold Agent.describe.
  set (docstring := match Tools.__doc__ tool with
                    | Some ((_ :: _) as doc) => Text.strip doc
                    | _ => Agent.no_description
                    end).
  destruct (index (Text.split1 F[ LF; LF ] docstring) 0) as [part0|];
    [|discriminate].
  cbn [rbind].
  destruct (index (Text.split_char 10 part0) 0) as [desc|]; [|discriminate].
  cbn [rbind].
  destruct (if Nat.ltb 1 (List.length (Text.split1 F[ LF; LF ] docstring))
            then index (Text.split1 F[ LF; LF ] docstring) 1
            else Return []) as [section|]; [|discriminate].
  cbn [rbind].
  destruct (Text.contains "Parameters:" section).
  - destruct (Agent.parameters_loop (Agent.LoopState false desc [])
                (Text.split_char 10 section)) as [st|] eqn:Hloop;
      [|discriminate].
    cbn [rbind]. intros H; inversion H; subst. cbn [Agent.info_parameters].
    apply (parameters_loop_keeps _ _ Hloop).
    split; constructor.
  - cbn [rbind]. intros H; inversion H; subst. split; constructor.
Qed.

Lemma descriptor_parameters_witness :
  NoDup (List.map fst
           (Agent.info_parameters
              (Agent.ToolInfo "convert" " The temperature in Celsius."
                 [(Text.lit "degrees",
                   Agent.Param "str" "The temperature in Celsius." true)])))
  /\ Forall (fun kv => Agent.required (snd kv) = true)
       (Agent.info_parameters
          (Agent.ToolInfo "convert" " The temperature in Celsius."
             [(Text.lit "degrees",
               Agent.Param "str" "The temperature in Celsius." true)])).
Proof.
  apply (@descriptor_parameters Notebook.convert).
  vm_compute. reflexivity.
Defined.

(** X19. The parameters are only looked for after the first blank line of
    the stripped docstring: a docstring without a blank line gives its
    first line as the description and no parameters, and a tool without a
    docstring (or with an empty one) gets "No description available." *)
Theorem descriptor_without_blank_line (tool : Tools.tool) :
  (Tools.__doc__ tool = None \/ Tools.__doc__ tool = Some [] ->
   Agent.describe tool
   = Return (Agent.ToolInfo (Tools.__name__ tool) Agent.no_description []))
  /\ (forall doc first rest,
        Tools.__doc__ tool = Some doc -> doc <> [] ->
        Text.contains F[ LF; LF ] (Text.strip doc) = false ->
        Text.split_char 10 (Text.strip doc) = first :: rest ->
        Agent.describe tool
        = Return (Agent.ToolInfo (Tools.__name__ tool) first [])).
Proof.
  split.
  - intros [H|H]; unfold Agent.describe; rewrite H; reflexivity.
  - intros doc first rest Hdoc Hne Hblank Hfirst.
    unfold Agent.describe. rewrite Hdoc.
    destruct doc as [|c doc]; [destruct (Hne eq_refl)|].
    unfold Text.split1. rewrite (cut_contains _ _ Hblank).
    cbn [index nth_error rbind List.length Nat.ltb Nat.leb].
    rewrite Hfirst. cbn [index nth_error rbind].
    reflexivity.
Qed.

Lemma descriptor_without_blank_line_witness :
  Agent.describe Notebook.lookup_first
  = Return (Agent.ToolInfo (Tools.__name__ Notebook.lookup_first)
              "Look a word up in the first dictionary." []).
Proof.
  apply (proj2 (descriptor_without_blank_line Notebook.lookup_first)
           "Look a word up in the first dictionary."
           "Look a word up in the first dictionary." []);
    [reflexivity|discriminate|reflexivity|reflexivity].
Defined.

(** ** A whole turn of the agent *)





(** ** The listing of the Mistral notebook *)

Lemma dict_set_fresh {V} k (v : V) d :
  existsb (Text.eqb k) (List.map fst d) = false ->
  dict_set k v d = d ++ [(k, v)].
Proof.
  induction d as [|[k' v'] d IH]; cbn [dict_set List.map fst existsb app];
    intros H.
  - reflexivity.
  - apply orb_false_iff in H as [Hhead Hrest].
    rewrite Hhead, (IH Hrest). reflexivity.
Qed.

Lemma tools_dict_distinct tools :
  forall d : list (pystr * option pystr),
    NoDup (List.map Tools.__name__ tools) ->
    (forall tool, In tool tools ->
                  existsb (Text.eqb (Tools.__name__ tool)) (List.map fst d)
                  = false) ->
    fold_left (fun d tool =>
                 dict_set (Tools.__name__ tool) (Tools.__doc__ tool) d)
      tools d
    = d ++ List.map (fun tool => (Tools.__name__ tool, Tools.__doc__ tool))
             tools.
Proof.
  induction tools as [|tool rest IH]; intros d Hnodup Hfresh;
    cbn [fold_left List.map].
  - rewrite app_nil_r. reflexivity.
  - inversion Hnodup as [|x l Hnotin Hrest]; subst.
    rewrite (dict_set_fresh _ _ _ (Hfresh tool (or_introl eq_refl))).
    rewrite IH; [rewrite <- app_assoc; reflexivity|exact Hrest|].
    intros t Hin. rewrite map_app, existsb_app.
    rewrite (Hfresh t (or_intror Hin)). cbn [List.map fst existsb orb].
    rewrite orb_false_r. apply eqb_neq. intros Heq.
    apply Hnotin. rewrite <- Heq. apply in_map. exact Hin.
Qed.

(** X21. For tools with distinct names, the stand-alone [prepare_tools]
    lists every tool, in the order of the list: one line per tool with its
    name and its docstring in double quotes ("None" for a tool without
    docstring). *)
Theorem mistral_lists_every_tool (tools : list Tools.tool) :
  NoDup (List.map Tools.__name__ tools) ->
  Mistral.prepare_tools tools
  = Text.join LF
      (List.map (fun tool =>
         F[ Tools.__name__ tool; ": "; DQ;
            match Tools.__doc__ tool with
            | Some desc => desc
            | None => Text.lit "None"
            end; DQ ]) tools).
Proof.
  intros Hnodup. unfold Mistral.prepare_tools, Mistral.tools_dict.
  rewrite (tools_dict_distinct tools [] Hnodup) by reflexivity.
  cbn [app]. rewrite map_map. reflexivity.
Qed.

Lemma mistral_lists_every_tool_witness :
  Mistral.prepare_tools (Mistral.tools Notebook.interpreter)
  = Text.join LF
      (List.map (fun tool =>
         F[ Tools.__name__ tool; ": "; DQ;
            match Tools.__doc__ tool with
            | Some desc => desc
            | None => Text.lit "None"
            end; DQ ]) (Mistral.tools Notebook.interpreter)).
Proof.
  apply mistral_lists_every_tool.
  repeat constructor; cbn; intuition discriminate.
Defined.
